(** * majerus: team-name normalisation and game-log aggregation

    A shallow embedding of [majerus/parser.py] and [majerus/process.py].
    Python text is modelled by [string] restricted to ASCII, where the
    NFKD decomposition [unicodedata.normalize("NFKD", _)] is the identity.
    Exceptions are values of [exn]; a call yields a [result]. *)

From Stdlib Require Import String Ascii List ZArith QArith Bool Arith Lia Sorted.
Import ListNotations.
Open Scope string_scope.

(** ** Python runtime: exceptions and values *)

Inductive exn : Type :=
| KeyError (msg : string)
| NameError (name : string)
| ValueError (msg : string)
| IndexError (msg : string).

Inductive result (A : Type) : Type :=
| Return (a : A)
| Raise (e : exn).
Arguments Return {A} a.
Arguments Raise {A} e.

Definition bind {A B : Type} (r : result A) (k : A -> result B) : result B :=
  match r with
  | Return a => k a
  | Raise e => Raise e
  end.

Notation "x <- r ;; k" := (bind r (fun x => k))
  (at level 61, r at next level, right associativity).

(** What [name_normalizer] can hand back: a [str], [np.nan], an [int],
    or a 2-tuple of those. *)
Inductive pyval : Type :=
| PStr (s : string)
| PNaN
| PInt (z : Z)
| PTuple (a b : pyval).

(** ** Python [str] methods used by the parser *)

(** [str.isspace] on ASCII: tab..carriage return, the four separators
    0x1c..0x1f, and the space. *)
Definition is_space (c : ascii) : bool :=
  let n := nat_of_ascii c in
  (((9 <=? n) && (n <=? 13)) || ((28 <=? n) && (n <=? 32)))%nat.

Definition lower_char (c : ascii) : ascii :=
  let n := nat_of_ascii c in
  if ((65 <=? n) && (n <=? 90))%nat then ascii_of_nat (n + 32) else c.

(** [s.lower()] *)
Fixpoint lower (s : string) : string :=
  match s with
  | EmptyString => EmptyString
  | String c s' => String (lower_char c) (lower s')
  end.

Fixpoint lstrip (s : string) : string :=
  match s with
  | EmptyString => EmptyString
  | String c s' => if is_space c then lstrip s' else s
  end.

Fixpoint rstrip (s : string) : string :=
  match s with
  | EmptyString => EmptyString
  | String c s' =>
      match rstrip s' with
      | EmptyString => if is_space c then EmptyString else String c EmptyString
      | r => String c r
      end
  end.

(** [s.strip()] *)
Definition strip (s : string) : string := rstrip (lstrip s).

(** [sub in s] *)
Fixpoint contains (sub s : string) : bool :=
  prefix sub s ||
  match s with
  | EmptyString => false
  | String _ s' => contains sub s'
  end.

(** [s.replace(old, new)] for a non-empty [old]: leftmost matches, not
    overlapping.  [skip] counts the characters of a match still to drop. *)
Fixpoint replace_from (old new s : string) (skip : nat) : string :=
  match s with
  | EmptyString => EmptyString
  | String c s' =>
      match skip with
      | S k => replace_from old new s' k
      | O =>
          if prefix old s
          then new ++ replace_from old new s' (String.length old - 1)
          else String c (replace_from old new s' 0)
      end
  end.

Definition replace (old new s : string) : string := replace_from old new s 0.

Definition snoc (tok : string) (c : ascii) : string := tok ++ String c EmptyString.

(** [s.split()]: split on runs of whitespace, no empty strings. *)
Fixpoint split_ws_go (s tok : string) : list string :=
  match s with
  | EmptyString => match tok with EmptyString => [] | _ => [tok] end
  | String c s' =>
      if is_space c
      then match tok with
           | EmptyString => split_ws_go s' EmptyString
           | _ => tok :: split_ws_go s' EmptyString
           end
      else split_ws_go s' (snoc tok c)
  end.

Definition split_ws (s : string) : list string := split_ws_go s EmptyString.

(** [s.split(sep)] for a one-character [sep]: every separator cuts, empty
    strings are kept. *)
Fixpoint split_on_go (sep : ascii) (s tok : string) : list string :=
  match s with
  | EmptyString => [tok]
  | String c s' =>
      if Ascii.eqb c sep
      then tok :: split_on_go sep s' EmptyString
      else split_on_go sep s' (snoc tok c)
  end.

Definition split_on (sep : ascii) (s : string) : list string :=
  split_on_go sep s EmptyString.

(** [sep.join(l)] *)
Definition join (sep : string) (l : list string) : string := String.concat sep l.

(** [l[:-1]] *)
Definition drop_last {A : Type} (l : list A) : list A := removelast l.

(** A dict literal: a later binding of a key overrides an earlier one. *)
Fixpoint dict_get (d : list (string * string)) (k : string) : option string :=
  match d with
  | [] => None
  | (k', v) :: d' =>
      match dict_get d' k with
      | Some w => Some w
      | None => if String.eqb k' k then Some v else None
      end
  end.

Definition dict_values (d : list (string * string)) : list string := map snd d.

(** ** parser.py *)

(** Dictionary of all NCAA men's basketball team names. *)
Definition __team_names : list (string * string) :=
  [
    ("abilene-christian", "abilene-christian");
    ("air-force", "air-force");
    ("akron", "akron");
    ("alabama-am", "alabama-am");
    ("alabama-birmingham", "alabama-birmingham");
    ("uab", "alabama-birmingham");
    ("alabama-state", "alabama-state");
    ("alabama", "alabama");
    ("albany-ny", "albany-ny");
    ("albany", "albany-ny");
    ("alcorn-state", "alcorn-state");
    ("american", "american");
    ("appalachian-state", "appalachian-state");
    ("arizona-state", "arizona-state");
    ("arizona", "arizona");
    ("little-rock", "arkansas-little-rock");
    ("arkansas-little-rock", "arkansas-little-rock");
    ("arkansas-pine-bluff", "arkansas-pine-bluff");
    ("arkansas-state", "arkansas-state");
    ("arkansas", "arkansas");
    ("army", "army");
    ("auburn", "auburn");
    ("austin-peay", "austin-peay");
    ("ball-state", "ball-state");
    ("baylor", "baylor");
    ("belmont", "belmont");
    ("bethune-cookman", "bethune-cookman");
    ("binghamton", "binghamton");
    ("boise-state", "boise-state");
    ("boston-college", "boston-college");
    ("boston-university", "boston-university");
    ("bowling-green-state", "bowling-green-state");
    ("bowling-green", "bowling-green-state");
    ("bradley", "bradley");
    ("byu", "brigham-young");
    ("brigham-young", "brigham-young");
    ("brown", "brown");
    ("bryant", "bryant");
    ("bucknell", "bucknell");
    ("buffalo", "buffalo");
    ("butler", "butler");
    ("california-baptist", "california-baptist");
    ("cal-baptist", "california-baptist");
    ("cal-poly", "cal-poly");
    ("cal-state-bakersfield", "cal-state-bakersfield");
    ("cal-st-bakersfield", "cal-state-bakersfield");
    ("cal-state-fullerton", "cal-state-fullerton");
    ("cal-st-fullerton", "cal-state-fullerton");
    ("cal-state-northridge", "cal-state-northridge");
    ("cal-st-northridge", "cal-state-northridge");
    ("cal-state-long-beach", "long-beach-state");
    ("california-baptist", "california-baptist");
    ("california-davis", "california-davis");
    ("california-irvine", "california-irvine");
    ("california-riverside", "california-riverside");
    ("california-santa-barbara", "california-santa-barbara");
    ("university-of-california", "california");
    ("california", "california");
    ("campbell", "campbell");
    ("canisius", "canisius");
    ("centenary", "centenary-la");
    ("centenary (la)", "centenary-la");
    ("centenary-la", "centenary-la");
    ("central-arkansas", "central-arkansas");
    ("central-connecticut-state", "central-connecticut-state");
    ("central-connecticut", "central-connecticut-state");
    ("central-florida", "central-florida");
    ("ucf", "central-florida");
    ("central-michigan", "central-michigan");
    ("charleston-southern", "charleston-southern");
    ("charlotte", "charlotte");
    ("chattanooga", "chattanooga");
    ("chicago-state", "chicago-state");
    ("cincinnati", "cincinnati");
    ("citadel", "citadel");
    ("the-citadel", "citadel");
    ("clemson", "clemson");
    ("cleveland-state", "cleveland-state");
    ("coastal-carolina", "coastal-carolina");
    ("colgate", "colgate");
    ("charleston", "college-of-charleston");
    ("college-of-charleston", "college-of-charleston");
    ("colorado-state", "colorado-state");
    ("colorado", "colorado");
    ("columbia", "columbia");
    ("connecticut", "connecticut");
    ("coppin-state", "coppin-state");
    ("cornell", "cornell");
    ("creighton", "creighton");
    ("dartmouth", "dartmouth");
    ("davidson", "davidson");
    ("dayton", "dayton");
    ("delaware-state", "delaware-state");
    ("delaware", "delaware");
    ("denver", "denver");
    ("depaul", "depaul");
    ("detroit-mercy", "detroit-mercy");
    ("detroit", "detroit-mercy");
    ("drake", "drake");
    ("drexel", "drexel");
    ("duke", "duke");
    ("duquesne", "duquesne");
    ("east-carolina", "east-carolina");
    ("east-tennessee-state", "east-tennessee-state");
    ("etsu", "east-tennessee-state");
    ("eastern-illinois", "eastern-illinois");
    ("eastern-kentucky", "eastern-kentucky");
    ("eastern-michigan", "eastern-michigan");
    ("eastern-washington", "eastern-washington");
    ("elon", "elon");
    ("evansville", "evansville");
    ("fairfield", "fairfield");
    ("fairleigh-dickinson", "fairleigh-dickinson");
    ("florida-am", "florida-am");
    ("florida-atlantic", "florida-atlantic");
    ("fau", "florida-atlantic");
    ("florida-gulf-coast", "florida-gulf-coast");
    ("fgcu", "florida-gulf-coast");
    ("florida-international", "florida-international");
    ("fiu", "florida-international");
    ("florida-state", "florida-state");
    ("florida", "florida");
    ("fordham", "fordham");
    ("fresno-state", "fresno-state");
    ("furman", "furman");
    ("gardner-webb", "gardner-webb");
    ("george-mason", "george-mason");
    ("george-washington", "george-washington");
    ("georgetown", "georgetown");
    ("georgia-southern", "georgia-southern");
    ("georgia-state", "georgia-state");
    ("georgia-tech", "georgia-tech");
    ("georgia", "georgia");
    ("gonzaga", "gonzaga");
    ("grambling-state", "grambling");
    ("grambling", "grambling");
    ("grand-canyon", "grand-canyon");
    ("green-bay", "green-bay");
    ("hampton", "hampton");
    ("hartford", "hartford");
    ("harvard", "harvard");
    ("hawaii", "hawaii");
    ("high-point", "high-point");
    ("hofstra", "hofstra");
    ("holy-cross", "holy-cross");
    ("houston-baptist", "houston-baptist");
    ("houston", "houston");
    ("howard", "howard");
    ("idaho-state", "idaho-state");
    ("idaho", "idaho");
    ("uic", "illinois-chicago");
    ("illinois-chicago", "illinois-chicago");
    ("illinois-state", "illinois-state");
    ("illinois", "illinois");
    ("incarnate-word", "incarnate-word");
    ("indiana-state", "indiana-state");
    ("indiana", "indiana");
    ("iona", "iona");
    ("iowa-state", "iowa-state");
    ("iowa", "iowa");
    ("purdue-fort-wayne", "ipfw");
    ("fort-wayne", "ipfw");
    ("ipfw", "ipfw");
    ("iupui", "iupui");
    ("jackson-state", "jackson-state");
    ("jacksonville-state", "jacksonville-state");
    ("jacksonville", "jacksonville");
    ("james-madison", "james-madison");
    ("kansas-state", "kansas-state");
    ("kansas", "kansas");
    ("kennesaw-state", "kennesaw-state");
    ("kent-state", "kent-state");
    ("kentucky", "kentucky");
    ("la-salle", "la-salle");
    ("lafayette", "lafayette");
    ("lamar", "lamar");
    ("lehigh", "lehigh");
    ("liberty", "liberty");
    ("lipscomb", "lipscomb");
    ("long-beach-state", "long-beach-state");
    ("long-island-university", "long-island-university");
    ("liu", "long-island-university");
    ("liu-brooklyn", "long-island-university");
    ("longwood", "longwood");
    ("louisiana", "louisiana-lafayette");
    ("louisiana-lafayette", "louisiana-lafayette");
    ("louisiana-monroe", "louisiana-monroe");
    ("louisiana-state", "louisiana-state");
    ("lsu", "louisiana-state");
    ("louisiana-tech", "louisiana-tech");
    ("louisville", "louisville");
    ("loyola-il", "loyola-il");
    ("loyola-chicago", "loyola-il");
    ("loyola-marymount", "loyola-marymount");
    ("loyola-md", "loyola-md");
    ("maine", "maine");
    ("manhattan", "manhattan");
    ("marist", "marist");
    ("marquette", "marquette");
    ("marshall", "marshall");
    ("maryland-baltimore-county", "maryland-baltimore-county");
    ("umbc", "maryland-baltimore-county");
    ("maryland-eastern-shore", "maryland-eastern-shore");
    ("maryland", "maryland");
    ("massachusetts-lowell", "massachusetts-lowell");
    ("umass-lowell", "massachusetts-lowell");
    ("massachusetts", "massachusetts");
    ("umass", "massachusetts");
    ("mcneese-state", "mcneese-state");
    ("memphis", "memphis");
    ("mercer", "mercer");
    ("miami-fl", "miami-fl");
    ("miami-oh", "miami-oh");
    ("michigan-state", "michigan-state");
    ("michigan", "michigan");
    ("middle-tennessee", "middle-tennessee");
    ("milwaukee", "milwaukee");
    ("minnesota", "minnesota");
    ("mississippi-state", "mississippi-state");
    ("mississippi-valley-state", "mississippi-valley-state");
    ("mississippi", "mississippi");
    ("ole-miss", "mississippi");
    ("missouri-kansas-city", "missouri-kansas-city");
    ("umkc", "missouri-kansas-city");
    ("missouri-state", "missouri-state");
    ("missouri", "missouri");
    ("monmouth", "monmouth");
    ("montana-state", "montana-state");
    ("montana", "montana");
    ("morehead-state", "morehead-state");
    ("morgan-state", "morgan-state");
    ("mount-st-marys", "mount-st-marys");
    ("murray-state", "murray-state");
    ("navy", "navy");
    ("omaha", "nebraska-omaha");
    ("nebraska-omaha", "nebraska-omaha");
    ("nebraska", "nebraska");
    ("nevada-las-vegas", "nevada-las-vegas");
    ("unlv", "nevada-las-vegas");
    ("nevada", "nevada");
    ("new-hampshire", "new-hampshire");
    ("new-mexico-state", "new-mexico-state");
    ("new-mexico", "new-mexico");
    ("new-orleans", "new-orleans");
    ("niagara", "niagara");
    ("nicholls-state", "nicholls-state");
    ("njit", "njit");
    ("norfolk-state", "norfolk-state");
    ("north-alabama", "north-alabama");
    ("unc-asheville", "north-carolina-asheville");
    ("north-carolina-asheville", "north-carolina-asheville");
    ("north-carolina-at", "north-carolina-at");
    ("north-carolina-central", "north-carolina-central");
    ("north-carolina-greensboro", "north-carolina-greensboro");
    ("unc-greensboro", "north-carolina-greensboro");
    ("north-carolina-state", "north-carolina-state");
    ("n.c.-state", "north-carolina-state");
    ("nc-state", "north-carolina-state");
    ("north-carolina-wilmington", "north-carolina-wilmington");
    ("unc-wilmington", "north-carolina-wilmington");
    ("north-carolina", "north-carolina");
    ("unc", "north-carolina");
    ("north-dakota-state", "north-dakota-state");
    ("north-dakota", "north-dakota");
    ("north-florida", "north-florida");
    ("north-texas", "north-texas");
    ("northeastern", "northeastern");
    ("northern-arizona", "northern-arizona");
    ("northern-colorado", "northern-colorado");
    ("northern-illinois", "northern-illinois");
    ("northern-iowa", "northern-iowa");
    ("northern-kentucky", "northern-kentucky");
    ("northwestern-state", "northwestern-state");
    ("northwestern", "northwestern");
    ("notre-dame", "notre-dame");
    ("oakland", "oakland");
    ("ohio-state", "ohio-state");
    ("ohio", "ohio");
    ("oklahoma-state", "oklahoma-state");
    ("oklahoma", "oklahoma");
    ("old-dominion", "old-dominion");
    ("oral-roberts", "oral-roberts");
    ("oregon-state", "oregon-state");
    ("oregon", "oregon");
    ("pacific", "pacific");
    ("penn-state", "penn-state");
    ("pennsylvania", "pennsylvania");
    ("penn", "pennsylvania");
    ("pepperdine", "pepperdine");
    ("pittsburgh", "pittsburgh");
    ("pitt", "pittsburgh");
    ("portland-state", "portland-state");
    ("portland", "portland");
    ("prairie-view", "prairie-view");
    ("prairie-view-am", "prairie-view");
    ("presbyterian", "presbyterian");
    ("princeton", "princeton");
    ("providence", "providence");
    ("purdue", "purdue");
    ("quinnipiac", "quinnipiac");
    ("radford", "radford");
    ("rhode-island", "rhode-island");
    ("rice", "rice");
    ("richmond", "richmond");
    ("rider", "rider");
    ("robert-morris", "robert-morris");
    ("rutgers", "rutgers");
    ("sacramento-state", "sacramento-state");
    ("sacred-heart", "sacred-heart");
    ("saint-francis-pa", "saint-francis-pa");
    ("saint-josephs", "saint-josephs");
    ("st-josephs", "saint-josephs");
    ("saint-louis", "saint-louis");
    ("saint-marys-ca", "saint-marys-ca");
    ("saint-marys", "saint-marys-ca");
    ("saint-peters", "saint-peters");
    ("sam-houston-state", "sam-houston-state");
    ("samford", "samford");
    ("san-diego-state", "san-diego-state");
    ("san-diego", "san-diego");
    ("san-francisco", "san-francisco");
    ("san-jose-state", "san-jose-state");
    ("santa-clara", "santa-clara");
    ("savannah-state", "savannah-state");
    ("seattle", "seattle");
    ("seton-hall", "seton-hall");
    ("siena", "siena");
    ("south-alabama", "south-alabama");
    ("south-carolina-state", "south-carolina-state");
    ("south-carolina-upstate", "south-carolina-upstate");
    ("usc-upstate", "south-carolina-upstate");
    ("south-carolina", "south-carolina");
    ("south-dakota-state", "south-dakota-state");
    ("south-dakota", "south-dakota");
    ("south-florida", "south-florida");
    ("southeast-missouri-state", "southeast-missouri-state");
    ("southeastern-louisiana", "southeastern-louisiana");
    ("southern-california", "southern-california");
    ("usc", "southern-california");
    ("siu-edwardsville", "southern-illinois-edwardsville");
    ("southern-illinois-edwardsville", "southern-illinois-edwardsville");
    ("southern-illinois", "southern-illinois");
    ("smu", "southern-methodist");
    ("southern-methodist", "southern-methodist");
    ("southern-miss", "southern-mississippi");
    ("southern-mississippi", "southern-mississippi");
    ("southern-utah", "southern-utah");
    ("southern", "southern");
    ("saint-bonaventure", "st-bonaventure");
    ("st-bonaventure", "st-bonaventure");
    ("st-francis-ny", "st-francis-ny");
    ("saint-francis-ny", "st-francis-ny");
    ("saint-johns", "st-johns-ny");
    ("st-johns-ny", "st-johns-ny");
    ("saint-johns-ny", "st-johns-ny");
    ("stanford", "stanford");
    ("stephen-f-austin", "stephen-f-austin");
    ("stetson", "stetson");
    ("stony-brook", "stony-brook");
    ("syracuse", "syracuse");
    ("temple", "temple");
    ("tennessee-martin", "tennessee-martin");
    ("tennessee-state", "tennessee-state");
    ("tennessee-tech", "tennessee-tech");
    ("tennessee", "tennessee");
    ("texas-am-corpus-christi", "texas-am-corpus-christi");
    ("texas-am-corpus-chris", "texas-am-corpus-christi");
    ("texas-am", "texas-am");
    ("ut-arlington", "texas-arlington");
    ("texas-arlington", "texas-arlington");
    ("tcu", "texas-christian");
    ("texas-christian", "texas-christian");
    ("texas-el-paso", "texas-el-paso");
    ("utep", "texas-el-paso");
    ("texas-rio-grande-valley", "texas-pan-american");
    ("ut-rio-grande-valley", "texas-pan-american");
    ("texas-pan-american", "texas-pan-american");
    ("texas-san-antonio", "texas-san-antonio");
    ("utsa", "texas-san-antonio");
    ("texas-southern", "texas-southern");
    ("texas-state", "texas-state");
    ("texas-tech", "texas-tech");
    ("texas", "texas");
    ("toledo", "toledo");
    ("towson", "towson");
    ("troy", "troy");
    ("tulane", "tulane");
    ("tulsa", "tulsa");
    ("ucla", "ucla");
    ("utah-state", "utah-state");
    ("utah-valley", "utah-valley");
    ("utah", "utah");
    ("valparaiso", "valparaiso");
    ("vanderbilt", "vanderbilt");
    ("vermont", "vermont");
    ("villanova", "villanova");
    ("virginia-commonwealth", "virginia-commonwealth");
    ("vcu", "virginia-commonwealth");
    ("vmi", "virginia-military-institute");
    ("virginia-military-institute", "virginia-military-institute");
    ("virginia-tech", "virginia-tech");
    ("virginia", "virginia");
    ("wagner", "wagner");
    ("wake-forest", "wake-forest");
    ("washington-state", "washington-state");
    ("washington", "washington");
    ("weber-state", "weber-state");
    ("west-virginia", "west-virginia");
    ("western-carolina", "western-carolina");
    ("western-illinois", "western-illinois");
    ("western-kentucky", "western-kentucky");
    ("western-michigan", "western-michigan");
    ("wichita-state", "wichita-state");
    ("william-mary", "william-mary");
    ("winthrop", "winthrop");
    ("wisconsin", "wisconsin");
    ("wofford", "wofford");
    ("wright-state", "wright-state");
    ("wyoming", "wyoming");
    ("xavier", "xavier");
    ("yale", "yale");
    ("youngstown-state", "youngstown-state")
  ].

(** Dictionary for conference names. *)
Definition __conf_name : list (string * string) :=
  [
    ("mid-eastern athletic conference", "meac");
    ("meac", "meac");
    ("mid-american conference", "mac");
    ("mac", "mac");
    ("mountain west conference", "mwc");
    ("mwc", "mwc");
    ("atlantic 10 conference", "atlantic-10");
    ("a-10", "atlantic-10");
    ("a10", "atlantic-10");
    ("atlantic-10", "atlantic-10");
    ("missouri valley conference", "mvc");
    ("mvc", "mvc");
    ("southern conference", "southern");
    ("sc", "southern");
    ("southern", "southern");
    ("ivy group", "ivy");
    ("ivy", "ivy");
    ("sun belt conference", "sun-belt");
    ("sun belt", "sun-belt");
    ("sb", "sun-belt");
    ("sun-belt", "sun-belt");
    ("conference usa", "cusa");
    ("cusa", "cusa");
    ("western athletic conference", "wac");
    ("wac", "wac");
    ("horizon league", "horizon");
    ("horizon", "horizon");
    ("horz", "horizon");
    ("colonial athletic association", "colonial");
    ("caa", "colonial");
    ("colonial", "colonial");
    ("big west conference", "big-west");
    ("bw", "big-west");
    ("big west", "big-west");
    ("big-west", "big-west");
    ("atlantic sun conference", "atlantic-sun");
    ("a-sun", "atlantic-sun");
    ("asun", "atlantic-sun");
    ("atlantic-sun", "atlantic-sun");
    ("summit league", "summit");
    ("summit", "summit");
    ("sum", "summit");
    ("patriot league", "patriot");
    ("patriot", "patriot");
    ("pat", "patriot");
    ("ohio valley conference", "ovc");
    ("ovc", "ovc");
    ("big south conference", "big-south");
    ("big south", "big-south");
    ("big-south", "big-south");
    ("bsth", "big-south");
    ("america east conference", "america-east");
    ("aec", "america-east");
    ("ae", "america-east");
    ("america-east", "america-east");
    ("big sky conference", "big-sky");
    ("big sky", "big-sky");
    ("big-sky", "big-sky");
    ("bsky", "big-sky");
    ("metro atlantic athletic conference", "maac");
    ("maac", "maac");
    ("southland conference", "southland");
    ("southland", "southland");
    ("slnd", "southland");
    ("northeast conference", "northeast");
    ("nec", "northeast");
    ("northeast", "northeast");
    ("southwest athletic conference", "swac");
    ("swac", "swac");
    ("big ten conference", "big-ten");
    ("big ten", "big-ten");
    ("b10", "big-ten");
    ("big-ten", "big-ten");
    ("big 12 conference", "big-12");
    ("b12", "big-12");
    ("big 12", "big-12");
    ("big-12", "big-12");
    ("atlantic coast conference", "acc");
    ("acc", "acc");
    ("southeastern conference", "sec");
    ("sec", "sec");
    ("big east conference", "big-east");
    ("be", "big-east");
    ("big east", "big-east");
    ("big-east", "big-east");
    ("pacific-12 conference", "pac-12");
    ("pac 12", "pac-12");
    ("p12", "pac-12");
    ("pac-12", "pac-12");
    ("pacific-10 conference", "pac-10");
    ("pac 10", "pac-10");
    ("pac-10", "pac-10");
    ("p10", "pac-10");
    ("american athletic conference", "aac");
    ("amer", "aac");
    ("aac", "aac");
    ("west coast conference", "wcc");
    ("wcc", "wcc");
    ("great west conference", "great-west");
    ("great-west", "great-west");
    ("gwc", "great-west");
    ("ind", "ind")
  ].

(** The "st." special case: decided on the first and the last
    whitespace-delimited token, carried out by [str.replace] on the whole
    string.  [tmp[0]] and [tmp[-1]] are read with the default [""], which
    is no token; [tmp] is never empty there (lemma [st_dot_tokens_nonempty]). *)
Definition first_token (s : string) : string := hd "" (split_ws s).
Definition last_token (s : string) : string := last (split_ws s) "".

Definition expand_st (parsed_team : string) : string :=
  if contains "st." parsed_team then
    if String.eqb (first_token parsed_team) "st."
    then replace "st." "saint" parsed_team
    else if String.eqb (last_token parsed_team) "st."
    then replace "st." "state" parsed_team
    else parsed_team
  else parsed_team.

Definition junk_chars : list string := ["&"; "("; ")"; "'"; "."].

Definition remove_junk (parsed_team : string) : string :=
  fold_left (fun s char => replace char "" s) junk_chars parsed_team.

(** The token list just before the tournament test. *)
Definition tokens (name : string) : list string :=
  let parsed_team := strip (lower name) in
  let parsed_team := expand_st parsed_team in
  let parsed_team := remove_junk parsed_team in
  let parsed_team := replace "-" " " parsed_team in
  let parsed_team := split_on " "%char parsed_team in
  let parsed_team := map (fun wd => if String.eqb wd "uc" then "california" else wd) parsed_team in
  filter (fun el => negb (String.eqb el "")) parsed_team.

(** ["ncaa" in parsed_team] *)
Definition has_ncaa (toks : list string) : bool := existsb (String.eqb "ncaa") toks.

Definition b_march_madness (name : string) : Z :=
  if has_ncaa (tokens name) then 1%Z else 0%Z.

(** The string looked up in [__team_names]. *)
Definition lookup_key (name : string) : string :=
  if has_ncaa (tokens name)
  then join "-" (drop_last (tokens name))
  else join "-" (tokens name).

Definition team_err_msg (key : string) : string :=
  "Incorrect team name: " ++ key ++ ". See this function's docs for valid names.".

Definition name_normalizer (name : string)
    (made_tourney return_both ignore_errors : bool) : result pyval :=
  parsed_team <-
    match dict_get __team_names (lookup_key name) with
    | Some v => Return (PStr v)
    | None =>
        if ignore_errors then Return PNaN
        else Raise (KeyError (team_err_msg (lookup_key name)))
    end ;;
  if return_both then Return (PTuple parsed_team (PInt (b_march_madness name)))
  else if negb made_tourney then Return parsed_team
  else Return (PInt (b_march_madness name)).

Definition conf_key (name : string) : string :=
  let parsed_conf := strip (lower name) in
  if contains "(east)" parsed_conf || contains "(west)" parsed_conf
     || contains "(south)" parsed_conf || contains "(north)" parsed_conf
  then join "-" (drop_last (split_on " "%char parsed_conf))
  else parsed_conf.

(** Not an f-string in the source: the braces are literal text. *)
Definition conf_err_msg : string :=
  "Incorrect conference name: {parsed_conf}. See this function's docs for valid names.".

Definition conf_name_normalizer (name : string) (ignore_errors : bool) : result pyval :=
  match dict_get __conf_name (conf_key name) with
  | Some v => Return (PStr v)
  | None =>
      if ignore_errors then Return PNaN
      else Raise (KeyError conf_err_msg)
  end.

(** ** process.py *)

(** A cell of the [Date] column: text as read from the CSV, or a pandas
    [Timestamp] once [pd.to_datetime] has run. *)
Inductive date_cell : Type :=
| DateStr (s : string)
| Timestamp (t : Z).

(** [a < b] on [Date] cells holding timestamps. *)
Definition date_ltb (a b : date_cell) : bool :=
  match a, b with
  | Timestamp x, Timestamp y => (x <? y)%Z
  | _, _ => false
  end.

Definition date_le (a b : date_cell) : Prop :=
  match a, b with
  | Timestamp x, Timestamp y => (x <= y)%Z
  | _, _ => False
  end.

(** Simple function to identify name of home team. *)
Definition __home_name (location team opponent : string) : string :=
  if String.eqb location "H" || String.eqb location "N" then team else opponent.

(** The identifiers of [process_game_logs] that are assigned under one
    spelling and read under another. *)
Inductive ident : Type := featureCols | feature_cols | teamDf | team_df | team_tf.

Definition ident_name (x : ident) : string :=
  match x with
  | featureCols => "featureCols"
  | feature_cols => "feature_cols"
  | teamDf => "teamDf"
  | team_df => "team_df"
  | team_tf => "team_tf"
  end.

Definition ident_eqb (x y : ident) : bool := String.eqb (ident_name x) (ident_name y).

(** Which binding an occurrence of a name denotes. *)
Definition reading : Type := ident -> ident.

(** Python: every name denotes itself. *)
Definition as_written : reading := fun x => x.

(** Not what Python runs: the file read with one variable per concept,
    [feature_cols] for [featureCols], [team_df] and [team_tf] for [teamDf].
    It is kept beside [as_written] only to say which rows the lines after
    103 were written to give; what the repository's function does is
    stated of [as_written]. *)
Definition as_meant : reading := fun x =>
  match x with
  | feature_cols => featureCols
  | team_df | team_tf => teamDf
  | _ => x
  end.

(** Reading the name [x] when the function has so far bound [v] to
    [bound] and nothing to the other spellings. *)
Definition load {A : Type} (rd : reading) (bound : ident) (v : A) (x : ident) : result A :=
  if ident_eqb (rd x) bound then Return v
  else Raise (NameError (ident_name x)).

Definition feature_list : list string :=
  ["FGA"; "FG%"; "PF"; "3P%"; "FT%"; "ORtg"; "DRtg"; "Pace";
   "FTr"; "3PAr"; "TS%"; "TRB%"; "AST%"; "STL%"; "BLK%";
   "eFG%"; "TOV%"; "ORB%"; "FT/FGA"; "DRB%"].

Definition final_cols (cols : list string) : list string :=
  let team_cols := map (fun col => "team_" ++ col) cols in
  let opp_cols := map (fun col => "opp_" ++ col) cols in
  (team_cols ++ opp_cols)
  ++ ["team_name"; "opponent_name"; "team_at_home"; "neutral_site"; "team_won";
      "total_score"; "Date"; "Location"; "home_name"].

Definition is_nil {A : Type} (l : list A) : bool :=
  match l with [] => true | _ => false end.

Section GameLogs.

(** Numeric cells ([float64]), their sum, [np.nanmean] of a column, and
    [pd.to_datetime(_, format="%Y-%m-%d")] on one cell ([None]: the text
    does not parse). *)
Variable num : Type.
Variable add : num -> num -> num.
Variable nanmean : list num -> num.
Variable to_datetime : string -> option Z.

(** One row of the game-log frame.  The last four columns are the ones the
    call adds; [None] says the column is not there. *)
Record game : Type := {
  Date : date_cell;
  Team : string;
  Opponent : string;
  Location : string;
  TeamPoints : num;
  OpponentPoints : num;
  team_won : num;
  stats : string -> num;
  home_name : option string;
  team_at_home : option Z;
  neutral_site : option Z;
  total_score : option num
}.

Definition frame : Type := list game.

(** One record of [games]. *)
Record agg_row : Type := {
  team_means : list num;
  opp_means : list num;
  team_name : pyval;
  opponent_name : string;
  row_team_at_home : option Z;
  row_neutral_site : option Z;
  row_team_won : num;
  row_total_score : option num;
  row_Date : date_cell;
  row_Location : string;
  row_home_name : option string
}.

(** What the call returns: [None] or a frame of aggregated rows. *)
Inductive output : Type :=
| PyNone
| DataFrame (columns : list string) (records : list agg_row).

(** Lines 85 to 91 on one row. *)
Definition add_columns (x : game) : game :=
  {| Date := Date x; Team := Team x; Opponent := Opponent x; Location := Location x;
     TeamPoints := TeamPoints x; OpponentPoints := OpponentPoints x;
     team_won := team_won x; stats := stats x;
     home_name := Some (__home_name (Location x) (Team x) (Opponent x));
     team_at_home := Some (if String.eqb (Location x) "H" then 1%Z else 0%Z);
     neutral_site := Some (if String.eqb (Location x) "N" then 1%Z else 0%Z);
     total_score := Some (add (TeamPoints x) (OpponentPoints x)) |}.

Definition set_Date (d : date_cell) (x : game) : game :=
  {| Date := d; Team := Team x; Opponent := Opponent x; Location := Location x;
     TeamPoints := TeamPoints x; OpponentPoints := OpponentPoints x;
     team_won := team_won x; stats := stats x;
     home_name := home_name x; team_at_home := team_at_home x;
     neutral_site := neutral_site x; total_score := total_score x |}.

Definition parse_cell (d : date_cell) : option date_cell :=
  match d with
  | DateStr s => option_map Timestamp (to_datetime s)
  | Timestamp t => Some (Timestamp t)
  end.

(** Line 92: the whole column converts, or nothing is assigned. *)
Fixpoint parse_dates (df : frame) : option frame :=
  match df with
  | [] => Some []
  | x :: df' =>
      match parse_cell (Date x), parse_dates df' with
      | Some d, Some rest => Some (set_Date d x :: rest)
      | _, _ => None
      end
  end.

(** [df.groupby("Team").get_group(key)]: the rows of that team in frame
    order; a key that is no [str] matches no row. *)
Definition group_rows (df : frame) (key : pyval) : frame :=
  match key with
  | PStr k => filter (fun x => String.eqb (Team x) k) df
  | _ => []
  end.

Definition get_group (df : frame) (key : pyval) : result frame :=
  match group_rows df key with
  | [] => Raise (KeyError "")
  | g => Return g
  end.

(** [log[log["Date"] < d]] *)
Definition prior (d : date_cell) (log : frame) : frame :=
  filter (fun x => date_ltb (Date x) d) log.

(** [log.iloc[ii]] *)
Definition iloc (log : frame) (ii : nat) : result game :=
  match nth_error log ii with
  | Some x => Return x
  | None => Raise (IndexError "single positional indexer is out-of-bounds")
  end.

(** [log[cols].astype(float).aggregate(np.nanmean, axis=0)] *)
Definition column_means (cols : list string) (log : frame) : list num :=
  map (fun col => nanmean (map (fun x => stats x col) log)) cols.

(** Lines 153 to 180: the record of one kept game. *)
Definition make_game (parsed_team : pyval) (cols : list string)
    (cur : game) (tmp opp_tmp : frame) : agg_row :=
  {| team_means := column_means cols tmp;
     opp_means := column_means cols opp_tmp;
     team_name := parsed_team;
     opponent_name := Opponent cur;
     row_team_at_home := team_at_home cur;
     row_neutral_site := neutral_site cur;
     row_team_won := team_won cur;
     row_total_score := total_score cur;
     row_Date := Date cur;
     row_Location := Location cur;
     row_home_name := home_name cur |}.

(** The body of the loop for index [ii]: [None] is [continue]. *)
Definition loop_body (df : frame) (parsed_team : pyval) (cols : list string)
    (log : frame) (ii : nat) : result (option agg_row) :=
  cur <- iloc log ii ;;
  let tmp := prior (Date cur) log in
  match get_group df (PStr (Opponent cur)) with
  | Raise (KeyError _) => Return None
  | Raise e => Raise e
  | Return opp_df =>
      let opp_tmp := prior (Date cur) opp_df in
      if is_nil opp_tmp || is_nil tmp then Return None
      else Return (Some (make_game parsed_team cols cur tmp opp_tmp))
  end.

(** The loop over [range(skip_first_n, len(team_tf))]; the body reads the
    team's log under the name [team_df]. *)
Fixpoint games_loop (rd : reading) (df : frame) (parsed_team : pyval)
    (cols : list string) (teamDf_v : frame) (iis : list nat) : result (list agg_row) :=
  match iis with
  | [] => Return []
  | ii :: rest =>
      log <- load rd teamDf teamDf_v team_df ;;
      g <- loop_body df parsed_team cols log ii ;;
      games <- games_loop rd df parsed_team cols teamDf_v rest ;;
      Return (match g with Some game => game :: games | None => games end)
  end.

(** Lines 95 to 188, on the frame as lines 85 to 92 left it. *)
Definition aggregate_games (rd : reading) (df : frame) (parsed_team : pyval)
    (skip_first_n : nat) : result output :=
  cols <- load rd featureCols feature_list feature_cols ;;
  match get_group df parsed_team with
  | Raise (KeyError _) => Return PyNone
  | Raise e => Raise e
  | Return teamDf_v =>
      log <- load rd teamDf teamDf_v team_tf ;;
      games <- games_loop rd df parsed_team cols teamDf_v
                 (seq skip_first_n (length log - skip_first_n)) ;;
      Return (DataFrame (final_cols cols) games)
  end.

(** [process_game_logs(df, team, skip_first_n)] under a reading of its
    names: the outcome, and the caller's frame after the call.
    [skip_first_n] is a count of games, hence a [nat]; [verbose] only
    prints and is left out, as are the two [print] calls of the [except]
    branches. *)
Definition process_game_logs_with (rd : reading) (df : frame) (team : string)
    (skip_first_n : nat) : result output * frame :=
  match name_normalizer team false false false with
  | Raise e => (Raise e, df)
  | Return parsed_team =>
      let df1 := map add_columns df in
      match parse_dates df1 with
      | None => (Raise (ValueError "time data doesn't match format"), df1)
      | Some df2 => (aggregate_games rd df2 parsed_team skip_first_n, df2)
      end
  end.

(** The function as Python runs it. *)
Definition process_game_logs : frame -> string -> nat -> result output * frame :=
  process_game_logs_with as_written.

(** *** The loop in closed form *)

(** The games of [key] in the frame dated strictly before [d]: what the
    loop calls [tmp] for the team and [opp_tmp] for the opponent. *)
Definition history (df : frame) (key : pyval) (d : date_cell) : frame :=
  prior d (group_rows df key).

(** Game [cur] gets a row: neither side's history is empty. *)
Definition has_history (df : frame) (parsed_team : pyval) (cur : game) : bool :=
  negb (is_nil (history df (PStr (Opponent cur)) (Date cur))
        || is_nil (history df parsed_team (Date cur))).

Definition row_of (df : frame) (parsed_team : pyval) (cols : list string)
    (cur : game) : agg_row :=
  make_game parsed_team cols cur
    (history df parsed_team (Date cur))
    (history df (PStr (Opponent cur)) (Date cur)).

(** The rows the loop makes from the team's log. *)
Definition rows_of (df : frame) (parsed_team : pyval) (cols : list string)
    (skip_first_n : nat) : list agg_row :=
  map (row_of df parsed_team cols)
      (filter (has_history df parsed_team)
              (skipn skip_first_n (group_rows df parsed_team))).

(** Every record of [log] carries a timestamp strictly below [D]. *)
Definition all_before (D : Z) (log : frame) : Prop :=
  Forall (fun x => exists t, Date x = Timestamp t /\ (t < D)%Z) log.

(** What lines 85 to 91 do to a row [x] of the caller's frame: the four
    columns are set from the row's own cells, and every other cell but
    [Date] is as it was. *)
Definition touched (x x' : game) : Prop :=
  Team x' = Team x /\ Opponent x' = Opponent x /\ Location x' = Location x
  /\ TeamPoints x' = TeamPoints x /\ OpponentPoints x' = OpponentPoints x
  /\ team_won x' = team_won x /\ stats x' = stats x
  /\ home_name x' = Some (__home_name (Location x) (Team x) (Opponent x))
  /\ team_at_home x' = Some (if String.eqb (Location x) "H" then 1%Z else 0%Z)
  /\ neutral_site x' = Some (if String.eqb (Location x) "N" then 1%Z else 0%Z)
  /\ total_score x' = Some (add (TeamPoints x) (OpponentPoints x)).

(** Line 92 on the [Date] column.  [pd.to_datetime] converts the whole
    column or raises before anything is assigned: when every cell parses,
    each cell of the frame is the timestamp of the cell it had; when one
    does not, each cell is the cell it had. *)
Definition all_dates_parse (df : frame) : bool :=
  forallb (fun x => match parse_cell (Date x) with Some _ => true | None => false end) df.

Definition date_converted (x x' : game) : Prop :=
  exists t, parse_cell (Date x) = Some (Timestamp t) /\ Date x' = Timestamp t.

Definition date_kept (x x' : game) : Prop := Date x' = Date x.

(** A row looks back only: its date is a timestamp [D], its means are
    the column means over the team's and over the opponent's games in the
    frame dated before the row, and each of those games is dated strictly
    below [D]. *)
Definition looks_back_only (df : frame) (row : agg_row) : Prop :=
  exists D,
    row_Date row = Timestamp D
    /\ team_means row
       = column_means feature_list (history df (team_name row) (row_Date row))
    /\ opp_means row
       = column_means feature_list (history df (PStr (opponent_name row)) (row_Date row))
    /\ all_before D (history df (team_name row) (row_Date row))
    /\ all_before D (history df (PStr (opponent_name row)) (row_Date row)).

End GameLogs.

Arguments Date {num} _.
Arguments Team {num} _.
Arguments Opponent {num} _.
Arguments Location {num} _.
Arguments TeamPoints {num} _.
Arguments OpponentPoints {num} _.
Arguments team_won {num} _.
Arguments stats {num} _ _.
Arguments home_name {num} _.
Arguments team_at_home {num} _.
Arguments neutral_site {num} _.
Arguments total_score {num} _.
Arguments team_means {num} _.
Arguments opp_means {num} _.
Arguments team_name {num} _.
Arguments opponent_name {num} _.
Arguments row_Date {num} _.
Arguments PyNone {num}.
Arguments DataFrame {num} _ _.
Arguments group_rows {num} _ _.
Arguments prior {num} _ _.
Arguments history {num} _ _ _.
Arguments has_history {num} _ _ _.
Arguments all_before {num} _ _.
Arguments get_group {num} _ _.
Arguments iloc {num} _ _.
Arguments set_Date {num} _ _.

(** ** The specification's wording of two parser steps *)

(** The "st." step token by token: a first token "st." becomes "saint", a
    last token "st." becomes "state", every other token stays. *)
Fixpoint expand_st_spec_from (first : bool) (toks : list string) : list string :=
  match toks with
  | [] => []
  | t :: rest =>
      (if String.eqb t "st."
       then if first then "saint" else if is_nil rest then "state" else t
       else t)
      :: expand_st_spec_from false rest
  end.

Definition expand_st_spec (toks : list string) : list string :=
  expand_st_spec_from true toks.

(** "The token sequence ends with ncaa". *)
Definition ends_with_ncaa (toks : list string) : Prop := last toks "" = "ncaa".

(** ** parser.py: the two enumerations *)

(** [set(l)]: the distinct elements of [l]; [np.sort] below makes their
    order irrelevant. *)
Definition py_set (l : list string) : list string := nodup string_dec l.

Fixpoint sorted_insert (x : string) (l : list string) : list string :=
  match l with
  | [] => [x]
  | y :: l' => if String.leb x y then x :: l else y :: sorted_insert x l'
  end.

(** [np.sort] on an array of [str]: ascending, compared code point by
    code point. *)
Definition np_sort (l : list string) : list string := fold_right sorted_insert [] l.

(** [list(np.sort(list(set(__team_names.values()))))] *)
Definition get_all_teams : list string := np_sort (py_set (dict_values __team_names)).

(** [list(np.sort(list(set(__conf_name.values()))))] *)
Definition get_all_confs : list string := np_sort (py_set (dict_values __conf_name)).

(** Every binding written in the literal [d] is the one a lookup finds. *)
Definition bindings_live (d : list (string * string)) : bool :=
  forallb (fun kv => match dict_get d (fst kv) with
                     | Some w => String.eqb w (snd kv)
                     | None => false
                     end) d.

(** ** Vocabulary for statements about text *)

(** [c in s] for one character [c]. *)
Fixpoint has_char (c : ascii) (s : string) : bool :=
  match s with
  | EmptyString => false
  | String a s' => Ascii.eqb a c || has_char c s'
  end.

(** A text made of whitespace only (or empty). *)
Fixpoint blank (s : string) : bool :=
  match s with
  | EmptyString => true
  | String a s' => is_space a && blank s'
  end.

(** The characters a lookup key is cleared of: the space and the five
    junk characters of [name_normalizer]. *)
Definition cleared_chars : list ascii := [" "; "&"; "("; ")"; "'"; "."]%char.

(** ** scraper.py: the clean-up of a scraped game log *)

(** [col.apply(f)]: [f] on each cell in turn; the first failure ends it. *)
Fixpoint apply_column {A B : Type} (f : A -> result B) (col : list A) : result (list B) :=
  match col with
  | [] => Return []
  | x :: col' =>
      y <- f x ;;
      ys <- apply_column f col' ;;
      Return (y :: ys)
  end.

(** Lines 128 and 129 on one cell of [team_won], a [str] after line 125:
    [str(x).split()[0]], then [1 if x == "W" else 0]. *)
Definition first_word (cell : string) : result string :=
  match split_ws cell with
  | [] => Raise (IndexError "list index out of range")
  | tok :: _ => Return tok
  end.

Definition won_flag (word : string) : Z := if String.eqb word "W" then 1%Z else 0%Z.

Definition team_won_column (col : list string) : result (list Z) :=
  words <- apply_column first_word col ;;
  Return (map won_flag words).

(** [str(cell)] for a cell of the [Opp] column: a name, or NaN ([None]). *)
Definition cell_text (cell : option string) : string :=
  match cell with
  | Some name => name
  | None => "nan"
  end.

(** Lines 105 to 110 on the rows of the log, each an [Opp] cell with the
    rest of the row.  With [normalize_names] every cell goes through
    [name_normalizer(_, ignore_errors=True)]; [dropna(subset=["Opp"])]
    then drops the rows whose cell is NaN. *)
Definition normalized_cell (cell : option string) : result pyval :=
  name_normalizer (cell_text cell) false false true.

Definition dropna {A : Type} (rows : list (pyval * A)) : list (string * A) :=
  flat_map (fun row => match fst row with
                       | PStr name => [(name, snd row)]
                       | _ => []
                       end) rows.

Definition clean_opponents {A : Type} (normalize_names : bool)
    (rows : list (option string * A)) : result (list (string * A)) :=
  if normalize_names then
    cells <- apply_column normalized_cell (map fst rows) ;;
    Return (dropna (combine cells (map snd rows)))
  else
    Return (dropna (map (fun row => (match fst row with
                                     | Some name => PStr name
                                     | None => PNaN
                                     end, snd row)) rows)).

(** What a cell of [Opp] becomes under [name_normalizer] with errors
    ignored: the table's identifier, or nothing for NaN. *)
Definition opp_id (cell : option string) : option string :=
  dict_get __team_names (lookup_key (cell_text cell)).

(** The rows the clean-up keeps: those whose opponent resolves. *)
Definition known_opponents {A : Type} (rows : list (option string * A))
    : list (string * A) :=
  flat_map (fun row => match opp_id (fst row) with
                       | Some v => [(v, snd row)]
                       | None => []
                       end) rows.

(** ** utils.py: medians of lists of unequal length *)

Section Medians.

(** Numbers, and [np.nanmedian] of a list. *)
Variable num : Type.
Variable nanmedian : list num -> num.

(** [itertools.zip_longest] over the lists of [x]: the tuples of first elements, second
    elements and so on, [None] where a list has run out; as many tuples
    as the longest list has elements. *)
Definition heads (x : list (list (option num))) : list (option num) :=
  map (fun row => match row with [] => None | v :: _ => v end) x.

Fixpoint zip_longest_from (n : nat) (x : list (list (option num)))
    : list (list (option num)) :=
  match n with
  | O => []
  | S n' => heads x :: zip_longest_from n' (map (@tl (option num)) x)
  end.

Definition zip_longest (x : list (list (option num))) : list (list (option num)) :=
  zip_longest_from (list_max (map (@List.length (option num)) x)) x.

(** [[i for i in x if i is not None]] *)
Definition present (x : list (option num)) : list num :=
  flat_map (fun i => match i with Some v => [v] | None => [] end) x.

Definition __median (x : list (option num)) : num := nanmedian (present x).

Definition median_unequal_arr (x : list (list (option num))) : list num :=
  map __median (zip_longest x).

(** The values the lists hold at position [i]. *)
Definition values_at (i : nat) (x : list (list (option num))) : list num :=
  flat_map (fun row => match nth_error row i with
                       | Some (Some v) => [v]
                       | _ => []
                       end) x.

End Medians.

(** ** Concrete inputs *)

(** An [np.nanmean] on rationals and a reader of YYYY-MM-DD dates, to run
    the functions on examples. *)
Definition Qmean (l : list Q) : Q :=
  match l with
  | [] => 0%Q
  | _ => Qred (fold_right Qplus 0%Q l / inject_Z (Z.of_nat (List.length l)))
  end.

Definition digit (c : ascii) : option Z :=
  let n := nat_of_ascii c in
  if ((48 <=? n) && (n <=? 57))%nat then Some (Z.of_nat (n - 48)) else None.

Definition two_digits (a b : ascii) : option Z :=
  match digit a, digit b with
  | Some x, Some y => Some (10 * x + y)%Z
  | _, _ => None
  end.

Definition parse_ymd (s : string) : option Z :=
  match s with
  | String y1 (String y2 (String y3 (String y4 (String "-" (String m1 (String m2
      (String "-" (String d1 (String d2 EmptyString))))))))) =>
      match two_digits y1 y2, two_digits y3 y4, two_digits m1 m2, two_digits d1 d2 with
      | Some c, Some y, Some m, Some d =>
          if ((1 <=? m) && (m <=? 12) && (1 <=? d) && (d <=? 31))%Z
          then Some (((100 * c + y) * 12 + (m - 1)) * 31 + (d - 1))%Z
          else None
      | _, _, _, _ => None
      end
  | _ => None
  end.

Definition mk_game (date team opponent location : string) (pts opp_pts : Z) : game Q :=
  {| Date := DateStr date; Team := team; Opponent := opponent; Location := location;
     TeamPoints := inject_Z pts; OpponentPoints := inject_Z opp_pts;
     team_won := if (opp_pts <? pts)%Z then 1%Q else 0%Q;
     stats := fun _ => (1 # 2)%Q;
     home_name := None; team_at_home := None; neutral_site := None;
     total_score := None |}.

(** Four games of duke in date order; kansas and wofford have no earlier
    game when duke meets them. *)
Definition season_log : list (game Q) :=
  [ mk_game "2018-01-01" "duke" "yale" "H" 80 70;
    mk_game "2018-01-01" "yale" "duke" "A" 70 80;
    mk_game "2018-01-05" "duke" "kansas" "N" 75 77;
    mk_game "2018-01-05" "kansas" "duke" "N" 77 75;
    mk_game "2018-01-09" "duke" "yale" "A" 90 60;
    mk_game "2018-01-09" "yale" "duke" "H" 60 90;
    mk_game "2018-01-12" "duke" "wofford" "H" 88 61 ].

(** The same kind of log with duke's games out of date order. *)
Definition shuffled_log : list (game Q) :=
  [ mk_game "2017-12-20" "yale" "kansas" "H" 66 64;
    mk_game "2018-01-09" "duke" "yale" "A" 90 60;
    mk_game "2018-01-01" "duke" "yale" "H" 80 70;
    mk_game "2018-01-05" "duke" "yale" "N" 75 77 ].

Definition run_as_written := process_game_logs Q Qplus Qmean parse_ymd.
Definition run_as_meant := process_game_logs_with Q Qplus Qmean parse_ymd as_meant.

(** The frame as a call leaves it. *)
Definition season_after : list (game Q) := snd (run_as_written season_log "Duke" 1).

(** Some median to run [median_unequal_arr] with: the middle element of
    the list as it stands. *)
Definition middle (l : list Z) : Z := nth (List.length l / 2) l 0%Z.

(** * Facts *)

Example norm_duke : name_normalizer "Duke" false false false = Return (PStr "duke").
Proof. reflexivity. Qed.
Example norm_stj : name_normalizer "St. John's (NY) NCAA" false true false
  = Return (PTuple (PStr "st-johns-ny") (PInt 1)).
Proof. vm_compute. reflexivity. Qed.
Example conf_pac : conf_name_normalizer "Pac 12 (South)" false = Return (PStr "pac-12").
Proof. vm_compute. reflexivity. Qed.


(** ** Strings *)

Lemma append_assoc_s (a b c : string) : (a ++ b) ++ c = a ++ (b ++ c).
Proof. induction a as [|x a IH]; simpl; [reflexivity | now rewrite IH]. Qed.

Lemma append_nil_r (a : string) : a ++ "" = a.
Proof. induction a as [|x a IH]; simpl; [reflexivity | now rewrite IH]. Qed.

Lemma snoc_append (tok : string) (c : ascii) (s : string) :
  snoc tok c ++ s = tok ++ String c s.
Proof. unfold snoc. now rewrite append_assoc_s. Qed.

Lemma snoc_not_empty (tok : string) (c : ascii) : snoc tok c <> "".
Proof. destruct tok; discriminate. Qed.

Lemma prefix_append (t post : string) : prefix t (t ++ post) = true.
Proof.
  induction t as [|x t IH]; simpl.
  - now destruct post.
  - destruct (ascii_dec x x); [exact IH | congruence].
Qed.

Lemma contains_unfold (sub s : string) :
  contains sub s =
  prefix sub s || match s with EmptyString => false | String _ s' => contains sub s' end.
Proof. now destruct s. Qed.

Lemma contains_infix (t pre post : string) : contains t (pre ++ t ++ post) = true.
Proof.
  induction pre as [|x pre IH]; simpl.
  - rewrite contains_unfold, prefix_append. reflexivity.
  - rewrite IH. apply orb_true_r.
Qed.

(** Every token of [s.split()] is a piece of [s]. *)
Lemma split_ws_go_infix (s tok t : string) :
  In t (split_ws_go s tok) -> exists pre post, tok ++ s = pre ++ t ++ post.
Proof.
  revert tok. induction s as [|c s IH]; intros tok Hin; simpl in Hin.
  - destruct tok; [contradiction|].
    destruct Hin as [<-|[]]. exists "", "". simpl. now rewrite !append_nil_r.
  - destruct (is_space c).
    + assert (Hrest : In t (split_ws_go s "") ->
                      exists pre post, tok ++ String c s = pre ++ t ++ post).
      { intros H. destruct (IH _ H) as (pre & post & E). simpl in E.
        exists (tok ++ String c pre), post.
        rewrite append_assoc_s. simpl. now rewrite E. }
      destruct tok as [|x tok]; [now apply Hrest|].
      destruct Hin as [<-|Hin]; [|now apply Hrest].
      exists "", (String c s). reflexivity.
    + destruct (IH _ Hin) as (pre & post & E).
      exists pre, post. now rewrite <- snoc_append.
Qed.

Lemma token_contained (s t : string) : In t (split_ws s) -> contains t s = true.
Proof.
  intros H. destruct (split_ws_go_infix _ _ _ H) as (pre & post & E).
  simpl in E. rewrite E. apply contains_infix.
Qed.

Lemma first_token_in (s t : string) : t <> "" -> first_token s = t -> In t (split_ws s).
Proof.
  unfold first_token. destruct (split_ws s); simpl; intros Hne E; [congruence | now left].
Qed.

Lemma last_in (l : list string) (t : string) : t <> "" -> last l "" = t -> In t l.
Proof.
  intros Hne. induction l as [|x l IH]; simpl; [congruence|].
  destruct l; [now left | intros E; right; now apply IH].
Qed.

Lemma split_ws_go_pending (s tok : string) : tok <> "" -> split_ws_go s tok <> [].
Proof.
  revert tok. induction s as [|c s IH]; intros tok Hne; simpl.
  - destruct tok; [congruence | discriminate].
  - destruct (is_space c).
    + destruct tok; [congruence | discriminate].
    + apply IH, snoc_not_empty.
Qed.

Lemma st_dot_starts_token (s tok : string) :
  contains "st." s = true -> split_ws_go s tok <> [].
Proof.
  revert tok. induction s as [|c s IH]; intros tok H.
  - discriminate.
  - rewrite contains_unfold in H. apply orb_true_iff in H. destruct H as [H|H].
    + cbn [prefix] in H. destruct (ascii_dec "s" c) as [<-|]; [|discriminate].
      simpl. apply split_ws_go_pending, snoc_not_empty.
    + simpl. destruct (is_space c); [destruct tok|]; try (apply IH; exact H).
      discriminate.
Qed.

(** Where the source indexes [tmp[0]] the list has an element. *)
Lemma st_dot_tokens_nonempty (s : string) :
  contains "st." s = true -> split_ws s <> [].
Proof. apply st_dot_starts_token. Qed.

Lemma mem_In (l : list string) (v : string) : existsb (String.eqb v) l = true -> In v l.
Proof.
  intros H. apply existsb_exists in H. destruct H as (x & Hx & E).
  apply String.eqb_eq in E. now subst.
Qed.

Lemma has_ncaa_In (toks : list string) : has_ncaa toks = true <-> In "ncaa" toks.
Proof.
  unfold has_ncaa. rewrite existsb_exists. split.
  - intros (x & Hx & E). apply String.eqb_eq in E. now subst.
  - intros H. exists "ncaa". split; [exact H | apply String.eqb_refl].
Qed.

Lemma dict_get_value (d : list (string * string)) (k v : string) :
  dict_get d k = Some v -> In v (dict_values d).
Proof.
  induction d as [|[k' w] d IH]; simpl; [discriminate|].
  destruct (dict_get d k) as [u|].
  - intros E. right. apply IH. exact E.
  - destruct (String.eqb k' k); [|discriminate]. intros [= ->]. now left.
Qed.

(** ** The team-name normaliser *)

(** A name found in the table comes back as the table's value. *)
Lemma name_normalizer_hit (name v : string) (ignore_errors : bool) :
  dict_get __team_names (lookup_key name) = Some v ->
  name_normalizer name false false ignore_errors = Return (PStr v).
Proof. unfold name_normalizer. now intros ->. Qed.

(** A name that is not in the table, errors ignored: [np.nan], alone or as
    the first half of the pair. *)
Lemma name_normalizer_miss_ignored (name : string) :
  dict_get __team_names (lookup_key name) = None ->
  name_normalizer name false false true = Return PNaN
  /\ name_normalizer name false true true
     = Return (PTuple PNaN (PInt (b_march_madness name)))
  /\ name_normalizer name true true true
     = Return (PTuple PNaN (PInt (b_march_madness name))).
Proof. unfold name_normalizer. now intros ->. Qed.

(** A name that is not in the table, errors not ignored: a [KeyError]
    whatever the other flags, and its message shows the key. *)
Lemma name_normalizer_miss_raises (name : string) (made_tourney return_both : bool) :
  dict_get __team_names (lookup_key name) = None ->
  name_normalizer name made_tourney return_both false
  = Raise (KeyError (team_err_msg (lookup_key name)))
  /\ contains (lookup_key name) (team_err_msg (lookup_key name)) = true.
Proof.
  unfold name_normalizer. intros ->. split; [reflexivity|].
  unfold team_err_msg. apply contains_infix.
Qed.

(** With the default flags the call never hands back anything but a
    [str]: it returns a table value or raises. *)
Lemma name_normalizer_strict (name : string) (r : pyval) :
  name_normalizer name false false false = Return r ->
  exists v, r = PStr v /\ dict_get __team_names (lookup_key name) = Some v.
Proof.
  unfold name_normalizer.
  destruct (dict_get __team_names (lookup_key name)) as [v|]; simpl; [|discriminate].
  intros [= <-]. now exists v.
Qed.

(** The table's values, checked one by one. *)
Lemma team_values_fixed :
  forallb (fun v => match name_normalizer v false false false with
                    | Return (PStr w) => String.eqb w v
                    | _ => false
                    end)
          (dict_values __team_names) = true.
Proof. vm_compute. reflexivity. Qed.

Ltac fixed_from_table H v Hv :=
  pose proof team_values_fixed as H; rewrite forallb_forall in H;
  specialize (H v Hv);
  destruct (name_normalizer v false false false) as [[?w| | |]|]; try discriminate;
  apply String.eqb_eq in H; now subst.

(** Normalising twice is normalising once. *)
Lemma name_normalizer_idempotent (name v : string) :
  name_normalizer name false false false = Return (PStr v) ->
  name_normalizer v false false false = Return (PStr v).
Proof.
  intros H. apply name_normalizer_strict in H. destruct H as (w & [= <-] & H).
  apply dict_get_value in H. fixed_from_table Hall v H.
Qed.

(** C4: every canonical identifier, that is every value the team table
    holds for some key, is returned unchanged by [name_normalizer]. *)
Theorem canonical_id_is_fixed (k v : string) :
  dict_get __team_names k = Some v ->
  name_normalizer v false false false = Return (PStr v).
Proof. intros Hk. apply dict_get_value in Hk. fixed_from_table Hall v Hk. Qed.

Lemma canonical_id_is_fixed_witness :
  dict_get __team_names "saint-marys" = Some "saint-marys-ca"
  /\ name_normalizer "saint-marys-ca" false false false = Return (PStr "saint-marys-ca").
Proof.
  assert (H : dict_get __team_names "saint-marys" = Some "saint-marys-ca")
    by (vm_compute; reflexivity).
  split; [exact H | exact (canonical_id_is_fixed "saint-marys" "saint-marys-ca" H)].
Defined.

(** ** The "st." step *)

(** C5, as the code has it: the step looks at the first and at the last
    token only to choose the expansion, and then rewrites every "st." of
    the string; the test ["st." in parsed_team] changes nothing. *)
Theorem expand_st_rewrites_every_st (s : string) :
  expand_st s =
  if String.eqb (first_token s) "st." then replace "st." "saint" s
  else if String.eqb (last_token s) "st." then replace "st." "state" s
  else s.
Proof.
  unfold expand_st. destruct (contains "st." s) eqn:Hc; [reflexivity|].
  destruct (String.eqb_spec (first_token s) "st.") as [E|_].
  - apply first_token_in in E; [|discriminate].
    apply token_contained in E. congruence.
  - destruct (String.eqb_spec (last_token s) "st.") as [E|_]; [|reflexivity].
    apply last_in in E; [|discriminate].
    apply token_contained in E. congruence.
Qed.

(** C5 fails as worded: with "st." last, the "st." in the middle is
    rewritten too, where the token-wise reading leaves it alone. *)
Lemma st_in_the_middle_is_rewritten :
  split_ws "a st. b st." = ["a"; "st."; "b"; "st."]
  /\ split_ws (expand_st "a st. b st.") = ["a"; "state"; "b"; "state"]
  /\ expand_st_spec (split_ws "a st. b st.") = ["a"; "st."; "b"; "state"].
Proof. repeat split; vm_compute; reflexivity. Qed.

(** A "st." that is last is not turned into "state" when the first token is
    "st." as well, and a "st." inside a longer token is rewritten. *)
Lemma st_first_wins_everywhere :
  expand_st "st. john st." = "saint john saint"
  /\ expand_st "best. st." = "bestate state".
Proof. split; vm_compute; reflexivity. Qed.

(** ** The tournament flag *)

(** C6, as the code has it: the flag is set and the last token dropped
    exactly when "ncaa" is one of the tokens, wherever it stands; a
    sequence that ends with it is one such case. *)
Theorem ncaa_anywhere_sets_flag (name : string) :
  ((b_march_madness name = 1%Z
    /\ lookup_key name = join "-" (drop_last (tokens name)))
   <-> In "ncaa" (tokens name))
  /\ ((b_march_madness name = 0%Z /\ lookup_key name = join "-" (tokens name))
      <-> ~ In "ncaa" (tokens name))
  /\ (ends_with_ncaa (tokens name) -> In "ncaa" (tokens name))
  /\ name_normalizer name true false true = Return (PInt (b_march_madness name)).
Proof.
  assert (Hret : name_normalizer name true false true
                 = Return (PInt (b_march_madness name))).
  { unfold name_normalizer, bind.
    destruct (dict_get __team_names (lookup_key name)); reflexivity. }
  assert (Hlast : ends_with_ncaa (tokens name) -> In "ncaa" (tokens name)).
  { intros H. apply last_in; [discriminate | exact H]. }
  unfold b_march_madness, lookup_key in *.
  pose proof (has_ncaa_In (tokens name)) as Hin.
  destruct (has_ncaa (tokens name)).
  - assert (Hyes : In "ncaa" (tokens name)) by now apply Hin.
    split; [|split; [|split]]; try assumption.
    + split; [intros _; exact Hyes | intros _; split; reflexivity].
    + split; [intros [H _]; discriminate | intros H; contradiction].
  - assert (Hno : ~ In "ncaa" (tokens name)) by (intros H; apply Hin in H; discriminate).
    split; [|split; [|split]]; try assumption.
    + split; [intros [H _]; discriminate | intros H; contradiction].
    + split; [intros _; exact Hno | intros _; split; reflexivity].
Qed.

(** C6 fails as worded: "ncaa" in front sets the flag and drops the last
    token, though the sequence does not end with "ncaa". *)
Lemma ncaa_in_front_drops_last_token :
  tokens "NCAA Duke" = ["ncaa"; "duke"]
  /\ b_march_madness "NCAA Duke" = 1%Z
  /\ lookup_key "NCAA Duke" = "ncaa"
  /\ ~ ends_with_ncaa (tokens "NCAA Duke").
Proof. repeat split; try (vm_compute; reflexivity). vm_compute. discriminate. Qed.

(** ** Names that are not in the tables *)

(** A conference that is not in the table: [np.nan] when errors are
    ignored, else a [KeyError] whose message is the same for every name. *)
Lemma conf_name_normalizer_miss (name : string) :
  dict_get __conf_name (conf_key name) = None ->
  conf_name_normalizer name true = Return PNaN
  /\ conf_name_normalizer name false = Raise (KeyError conf_err_msg).
Proof. unfold conf_name_normalizer. now intros ->. Qed.

(** C7 at a failing input: for a conference that is not in the table the
    message of the [KeyError] holds the text [{parsed_conf}] and not the key
    that was looked up, while the team normaliser's message shows its key.
    With errors ignored both hand back [np.nan]. *)
Theorem conf_error_message_lacks_key :
  conf_key "Fictional League" = "fictional league"
  /\ dict_get __conf_name (conf_key "Fictional League") = None
  /\ conf_name_normalizer "Fictional League" false
     = Raise (KeyError "Incorrect conference name: {parsed_conf}. See this function's docs for valid names.")
  /\ contains (conf_key "Fictional League") conf_err_msg = false
  /\ name_normalizer "Fictional University" false false false
     = Raise (KeyError "Incorrect team name: fictional-university. See this function's docs for valid names.")
  /\ conf_name_normalizer "Fictional League" true = Return PNaN
  /\ name_normalizer "Fictional University" false false true = Return PNaN.
Proof. repeat split; vm_compute; reflexivity. Qed.

(** C10: with [ignore_errors=True], [made_tourney=True] and
    [return_both=False] a name that is not in the table yields the integer
    flag, 0 or 1, never [np.nan]; some name that is in the table yields the
    very same result. *)
Theorem unknown_name_yields_flag (name : string) :
  dict_get __team_names (lookup_key name) = None ->
  name_normalizer name true false true = Return (PInt (b_march_madness name))
  /\ (b_march_madness name = 0 \/ b_march_madness name = 1)%Z
  /\ name_normalizer name true false true <> Return PNaN
  /\ exists known v,
       dict_get __team_names (lookup_key known) = Some v
       /\ name_normalizer known true false true = name_normalizer name true false true.
Proof.
  intros Hmiss.
  assert (Hret : name_normalizer name true false true
                 = Return (PInt (b_march_madness name))).
  { unfold name_normalizer, bind. now rewrite Hmiss. }
  rewrite Hret. split; [reflexivity|].
  unfold b_march_madness. destruct (has_ncaa (tokens name)).
  - split; [now right|]. split; [discriminate|].
    exists "Duke NCAA", "duke". split; vm_compute; reflexivity.
  - split; [now left|]. split; [discriminate|].
    exists "Duke", "duke". split; vm_compute; reflexivity.
Qed.

Lemma unknown_name_yields_flag_witness :
  dict_get __team_names (lookup_key "Fictional University") = None
  /\ name_normalizer "Fictional University" true false true = Return (PInt 0)
  /\ name_normalizer "Duke" true false true = Return (PInt 0).
Proof.
  assert (H : dict_get __team_names (lookup_key "Fictional University") = None)
    by (vm_compute; reflexivity).
  split; [exact H|].
  split; [exact (proj1 (unknown_name_yields_flag "Fictional University" H))|].
  vm_compute. reflexivity.
Defined.

(** ** Lists *)

Lemma skipn_uncons {A : Type} (a : nat) (l : list A) (x : A) (rest : list A) :
  skipn a l = x :: rest -> nth_error l a = Some x /\ skipn (S a) l = rest.
Proof.
  revert l. induction a as [|a IH]; intros [|y l]; simpl; try discriminate.
  - intros [= -> ->]. now split.
  - intros H. destruct (IH _ H) as [H1 H2]. split; [exact H1|].
    destruct l; [now rewrite skipn_nil in H | exact H2].
Qed.

Lemma filter_split_length {A : Type} (p : A -> bool) (l : list A) :
  (List.length (filter p l) + List.length (filter (fun x => negb (p x)) l)
   = List.length l)%nat.
Proof.
  induction l as [|x l IH]; simpl; [reflexivity|].
  destruct (p x); simpl; lia.
Qed.

Lemma is_nil_true {A : Type} (l : list A) : is_nil l = true <-> l = [].
Proof. destruct l; simpl; split; congruence. Qed.

Lemma date_ltb_lt (a b : date_cell) :
  date_ltb a b = true <-> exists t D, a = Timestamp t /\ b = Timestamp D /\ (t < D)%Z.
Proof.
  split.
  - destruct a as [|t], b as [|D]; simpl; try discriminate.
    intros H. exists t, D. repeat split. now apply Z.ltb_lt.
  - intros (t & D & -> & -> & H). simpl. now apply Z.ltb_lt.
Qed.

Lemma load_as_written {A : Type} (v : A) :
  load as_written featureCols v feature_cols = Raise (NameError "feature_cols")
  /\ load as_written teamDf v team_tf = Raise (NameError "team_tf")
  /\ load as_written teamDf v team_df = Raise (NameError "team_df").
Proof. repeat split. Qed.

Lemma load_as_meant {A : Type} (v : A) :
  load as_meant featureCols v feature_cols = Return v
  /\ load as_meant teamDf v team_tf = Return v
  /\ load as_meant teamDf v team_df = Return v.
Proof. repeat split. Qed.

Lemma load_inv {A : Type} (rd : reading) (bound x : ident) (v w : A) :
  load rd bound v x = Return w -> w = v /\ ident_eqb (rd x) bound = true.
Proof. unfold load. destruct (ident_eqb (rd x) bound); [intros [= <-]; now split | discriminate]. Qed.

(** ** The game-log loop *)

Section GameLogFacts.

Variable num : Type.
Variable add : num -> num -> num.
Variable nanmean : list num -> num.
Variable to_datetime : string -> option Z.

Local Abbreviation loop_body := (loop_body num nanmean).
Local Abbreviation games_loop := (games_loop num nanmean).
Local Abbreviation aggregate_games := (aggregate_games num nanmean).
Local Abbreviation row_of := (row_of num nanmean).
Local Abbreviation rows_of := (rows_of num nanmean).
Local Abbreviation column_means := (column_means num nanmean).
Local Abbreviation add_columns := (add_columns num add).
Local Abbreviation parse_dates := (parse_dates num to_datetime).
Local Abbreviation touched := (touched num add).
Local Abbreviation all_dates_parse := (all_dates_parse num to_datetime).
Local Abbreviation date_converted := (date_converted num to_datetime).
Local Abbreviation date_kept := (date_kept num).
Local Abbreviation process_with := (process_game_logs_with num add nanmean to_datetime).
Local Abbreviation process_game_logs := (process_game_logs num add nanmean to_datetime).

Lemma prior_nil (d : date_cell) : prior d ([] : frame num) = [].
Proof. reflexivity. Qed.

(** One turn of the loop at a valid index. *)
Lemma loop_body_closed (df : frame num) (parsed_team : pyval) (cols : list string)
    (ii : nat) (cur : game num) :
  nth_error (group_rows df parsed_team) ii = Some cur ->
  loop_body df parsed_team cols (group_rows df parsed_team) ii
  = Return (if has_history df parsed_team cur
            then Some (row_of df parsed_team cols cur) else None).
Proof.
  intros Hnth. unfold loop_body, iloc, bind, has_history, row_of, history.
  rewrite Hnth. unfold get_group.
  destruct (group_rows df (PStr (Opponent cur))) as [|y opp_df] eqn:E.
  - reflexivity.
  - destruct (is_nil (prior (Date cur) (y :: opp_df))
              || is_nil (prior (Date cur) (group_rows df parsed_team))); reflexivity.
Qed.

(** The loop over the indices from [a] on makes the rows of the games from
    position [a] on that have a history. *)
Lemma games_loop_closed (rd : reading) (df : frame num) (parsed_team : pyval)
    (cols : list string) (rest : frame num) :
  ident_eqb (rd team_df) teamDf = true ->
  forall a, skipn a (group_rows df parsed_team) = rest ->
  games_loop rd df parsed_team cols (group_rows df parsed_team)
    (seq a (List.length rest))
  = Return (map (row_of df parsed_team cols) (filter (has_history df parsed_team) rest)).
Proof.
  intros Hrd. induction rest as [|cur rest IH]; intros a Hskip; [reflexivity|].
  destruct (skipn_uncons _ _ _ _ Hskip) as [Hnth Hrest].
  cbn [List.length seq games_loop]. unfold load. rewrite Hrd. cbn [bind].
  rewrite (loop_body_closed _ _ _ _ _ Hnth). cbn [bind].
  rewrite (IH _ Hrest). cbn [bind filter].
  destruct (has_history df parsed_team cur); reflexivity.
Qed.

(** However the names are read, a frame that comes back holds the rows
    of the closed form. *)
Lemma aggregate_games_DataFrame (rd : reading) (df : frame num) (parsed_team : pyval)
    (skip_first_n : nat) (cols : list string) (rows : list (agg_row num)) :
  aggregate_games rd df parsed_team skip_first_n = Return (DataFrame cols rows) ->
  group_rows df parsed_team <> []
  /\ cols = final_cols feature_list
  /\ rows = rows_of df parsed_team feature_list skip_first_n.
Proof.
  unfold aggregate_games, rows_of.
  destruct (load rd featureCols feature_list feature_cols) as [c|e] eqn:Hc; [|discriminate].
  apply load_inv in Hc. destruct Hc as [-> _]. cbn [bind].
  unfold get_group.
  remember (group_rows df parsed_team) as log eqn:Hlog.
  destruct log as [|x log]; [discriminate|]. cbv beta iota.
  match goal with
  | |- context [@load ?A rd teamDf ?v team_tf] =>
      destruct (@load A rd teamDf v team_tf) as [l|e] eqn:Hl; [|discriminate]
  end.
  apply load_inv in Hl. destruct Hl as [-> _]. cbn [bind].
  intros H. split; [discriminate|]. revert H.
  rewrite Hlog, <- length_skipn.
  destruct (ident_eqb (rd team_df) teamDf) eqn:Hrd.
  - rewrite (games_loop_closed rd df parsed_team feature_list _ Hrd _ eq_refl).
    cbn [bind]. intros [= <- <-]. now split.
  - destruct (skipn skip_first_n (group_rows df parsed_team)) as [|cur rest].
    + cbn. intros [= <- <-]. now split.
    + cbn [List.length seq games_loop]. unfold load. rewrite Hrd. discriminate.
Qed.

(** The names read as meant: [None] for a team without a log, else the
    frame of the closed form. *)
Lemma aggregate_games_as_meant (df : frame num) (parsed_team : pyval) (skip_first_n : nat) :
  aggregate_games as_meant df parsed_team skip_first_n
  = match group_rows df parsed_team with
    | [] => Return PyNone
    | _ => Return (DataFrame (final_cols feature_list)
                     (rows_of df parsed_team feature_list skip_first_n))
    end.
Proof.
  unfold aggregate_games, rows_of, get_group.
  change (load as_meant featureCols feature_list feature_cols) with (Return feature_list).
  cbn [bind].
  destruct (group_rows df parsed_team) as [|x log] eqn:Hlog; [reflexivity|].
  match goal with
  | |- context [@load ?A as_meant teamDf ?v team_tf] =>
      change (@load A as_meant teamDf v team_tf) with (Return v)
  end.
  cbn [bind]. rewrite <- Hlog, <- length_skipn.
  rewrite (games_loop_closed as_meant df parsed_team feature_list _ eq_refl _ eq_refl).
  reflexivity.
Qed.

(** The names read as Python reads them: line 103 stops the call. *)
Lemma aggregate_games_as_written (df : frame num) (parsed_team : pyval) (skip_first_n : nat) :
  aggregate_games as_written df parsed_team skip_first_n
  = Raise (NameError "feature_cols").
Proof. reflexivity. Qed.

(** ** The whole call *)

Lemma Forall2_map_r {A : Type} (P : A -> A -> Prop) (f : A -> A) (l : list A) :
  (forall x, P x (f x)) -> Forall2 P l (map f l).
Proof. intros H. induction l; simpl; constructor; auto. Qed.

Lemma add_columns_touched (x : game num) : touched x (add_columns x).
Proof. unfold touched. simpl. repeat split. Qed.

Lemma parse_dates_touched (df df2 : frame num) :
  parse_dates (map add_columns df) = Some df2 -> Forall2 touched df df2.
Proof.
  revert df2. induction df as [|x df IH]; simpl; intros df2.
  - intros [= <-]. constructor.
  - destruct (parse_cell to_datetime (Date x)) as [d|] eqn:Hd; [|discriminate].
    destruct (parse_dates (map add_columns df)) as [rest|]; [|discriminate].
    intros [= <-]. constructor; [|now apply IH].
    unfold touched. simpl. repeat split.
Qed.

Lemma parse_cell_gives_timestamp (d d' : date_cell) :
  parse_cell to_datetime d = Some d' -> exists t, d' = Timestamp t.
Proof.
  destruct d as [s|t]; simpl.
  - destruct (to_datetime s) as [t|]; simpl; [|discriminate].
    intros [= <-]. now exists t.
  - intros [= <-]. now exists t.
Qed.

(** Line 92 went through: every cell parses and every cell is converted. *)
Lemma parse_dates_converted (df df2 : frame num) :
  parse_dates (map add_columns df) = Some df2 ->
  all_dates_parse df = true /\ Forall2 date_converted df df2.
Proof.
  revert df2. induction df as [|x df IH]; simpl; intros df2.
  - intros [= <-]. split; [reflexivity | constructor].
  - destruct (parse_cell to_datetime (Date x)) as [d|] eqn:Hd; [|discriminate].
    destruct (parse_dates (map add_columns df)) as [rest|]; [|discriminate].
    intros [= <-]. destruct (IH rest eq_refl) as [Hall Hrest].
    split; [exact Hall|]. constructor; [|exact Hrest].
    destruct (parse_cell_gives_timestamp _ _ Hd) as (t & ->).
    exists t. split; [exact Hd | reflexivity].
Qed.

(** Line 92 raised: some cell does not parse. *)
Lemma parse_dates_raises (df : frame num) :
  parse_dates (map add_columns df) = None -> all_dates_parse df = false.
Proof.
  induction df as [|x df IH]; simpl; [discriminate|].
  destruct (parse_cell to_datetime (Date x)) as [d|]; [|reflexivity].
  destruct (parse_dates (map add_columns df)) as [rest|]; [discriminate|].
  intros _. now apply IH.
Qed.

(** A call that returns went through every stage. *)
Lemma process_with_returns (rd : reading) (df df' : frame num) (team : string)
    (skip_first_n : nat) (out : output num) :
  process_with rd df team skip_first_n = (Return out, df') ->
  exists v,
    name_normalizer team false false false = Return (PStr v)
    /\ parse_dates (map add_columns df) = Some df'
    /\ aggregate_games rd df' (PStr v) skip_first_n = Return out.
Proof.
  unfold process_game_logs_with.
  destruct (name_normalizer team false false false) as [r|e] eqn:Hn; [|discriminate].
  destruct (name_normalizer_strict _ _ Hn) as (v & -> & _).
  destruct (parse_dates (map add_columns df)) as [df2|]; [|discriminate].
  intros [= H <-]. now exists v.
Qed.

(** With the names read as meant the call returns whenever the team is
    known and the dates parse. *)
Lemma process_as_meant (df df2 : frame num) (team v : string) (skip_first_n : nat) :
  name_normalizer team false false false = Return (PStr v) ->
  parse_dates (map add_columns df) = Some df2 ->
  process_with as_meant df team skip_first_n
  = (match group_rows df2 (PStr v) with
     | [] => Return PyNone
     | _ => Return (DataFrame (final_cols feature_list)
                      (rows_of df2 (PStr v) feature_list skip_first_n))
     end, df2).
Proof.
  intros Hn Hp. unfold process_game_logs_with. rewrite Hn, Hp.
  now rewrite aggregate_games_as_meant.
Qed.

(** With the names read as Python reads them no call returns: a known
    team and parsable dates end in the [NameError] of line 103. *)
Lemma process_as_written (df : frame num) (team : string) (skip_first_n : nat) :
  (exists e, fst (process_game_logs df team skip_first_n) = Raise e)
  /\ (forall v df2,
        name_normalizer team false false false = Return (PStr v) ->
        parse_dates (map add_columns df) = Some df2 ->
        process_game_logs df team skip_first_n = (Raise (NameError "feature_cols"), df2)).
Proof.
  unfold process_game_logs, process_game_logs_with. split.
  - destruct (name_normalizer team false false false) as [r|e]; [|now exists e].
    destruct (parse_dates (map add_columns df)); eexists; reflexivity.
  - intros v df2 -> ->. reflexivity.
Qed.

Lemma history_before (df : frame num) (key : pyval) (D : Z) :
  all_before D (history df key (Timestamp D)).
Proof.
  unfold all_before, history, prior. apply Forall_forall. intros x Hx.
  apply filter_In in Hx. destruct Hx as [_ Hx].
  apply date_ltb_lt in Hx. destruct Hx as (t & D' & Ht & [= <-] & Hlt).
  now exists t.
Qed.

Lemma history_timestamp (df : frame num) (key : pyval) (d : date_cell) :
  is_nil (history df key d) = false -> exists D, d = Timestamp D.
Proof.
  unfold history, prior. intros H.
  destruct (filter _ _) as [|x l] eqn:E; [discriminate|].
  assert (Hx : In x (x :: l)) by now left. rewrite <- E in Hx.
  apply filter_In in Hx. destruct Hx as [_ Hx].
  apply date_ltb_lt in Hx. destruct Hx as (t & D & _ & -> & _). now exists D.
Qed.

(** The rows the loop was written to give look back only. *)
Lemma rows_of_look_back (df : frame num) (parsed_team : pyval) (skip_first_n : nat) :
  Forall (looks_back_only num nanmean df) (rows_of df parsed_team feature_list skip_first_n).
Proof.
  unfold rows_of. apply Forall_forall. intros row Hrow.
  apply in_map_iff in Hrow. destruct Hrow as (cur & <- & Hcur).
  apply filter_In in Hcur. destruct Hcur as [_ Hh].
  unfold has_history in Hh. apply negb_true_iff, orb_false_iff in Hh.
  destruct Hh as [Hopp _].
  destruct (history_timestamp _ _ _ Hopp) as (D & HD).
  exists D. unfold row_of, make_game. simpl. rewrite HD.
  repeat split; apply history_before.
Qed.

(** The number of rows: the games past the first [skip_first_n], less
    those without a history on one side. *)
Lemma row_count (rd : reading) (df df' : frame num) (team : string)
    (skip_first_n : nat) (cols : list string) (rows : list (agg_row num)) :
  process_with rd df team skip_first_n = (Return (DataFrame cols rows), df') ->
  exists v,
    name_normalizer team false false false = Return (PStr v)
    /\ rows = rows_of df' (PStr v) feature_list skip_first_n
    /\ (List.length rows
        + List.length (filter (fun cur => negb (has_history df' (PStr v) cur))
                         (skipn skip_first_n (group_rows df' (PStr v))))
        = List.length (group_rows df' (PStr v)) - skip_first_n)%nat.
Proof.
  intros H. apply process_with_returns in H. destruct H as (v & Hn & _ & H).
  apply aggregate_games_DataFrame in H. destruct H as (_ & _ & ->).
  exists v. repeat split; [exact Hn|].
  unfold rows_of. rewrite length_map, filter_split_length. apply length_skipn.
Qed.

(** C8, as the code has it: when the team name is unknown the caller's
    frame is left as it was.  Otherwise the frame keeps its rows and their
    order, every row has the four columns of lines 85 to 91 set from its
    own cells and every other cell but [Date] as it was, and the [Date]
    column is converted as a whole by line 92: when every date parses each
    cell is the timestamp of the cell it had, and when one does not each
    cell is the cell it had.  This holds under every reading of the
    names, so for the function as Python runs it. *)
Theorem caller_frame_after_call (rd : reading) (df : frame num) (team : string)
    (skip_first_n : nat) :
  match name_normalizer team false false false with
  | Raise _ => snd (process_with rd df team skip_first_n) = df
  | Return _ =>
      Forall2 touched df (snd (process_with rd df team skip_first_n))
      /\ (if all_dates_parse df
          then Forall2 date_converted df (snd (process_with rd df team skip_first_n))
          else Forall2 date_kept df (snd (process_with rd df team skip_first_n)))
  end.
Proof.
  unfold process_game_logs_with.
  destruct (name_normalizer team false false false) as [r|e]; [|reflexivity].
  destruct (parse_dates (map add_columns df)) as [df2|] eqn:Hp; cbn [snd].
  - split; [now apply parse_dates_touched|].
    destruct (parse_dates_converted _ _ Hp) as [-> H]. exact H.
  - split; [apply Forall2_map_r, add_columns_touched|].
    rewrite (parse_dates_raises _ Hp).
    apply Forall2_map_r. intros x. reflexivity.
Qed.

End GameLogFacts.

(** ** The call on the two example logs *)

Lemma not_ascending (a b : Z) (l : list date_cell) :
  (b < a)%Z -> ~ Sorted date_le (Timestamp a :: Timestamp b :: l).
Proof.
  intros Hlt H. apply Sorted_inv in H. destruct H as [_ H].
  apply HdRel_inv in H. simpl in H. lia.
Qed.


(** C2 at a failing input: duke has four games in the log and one game is
    to be skipped, yet the call ends in a [NameError] and gives no row.
    With the names read as meant it gives the one row the claim counts:
    four games, less the first, less the two whose opponent has no
    earlier game. *)
Theorem season_log_ends_in_NameError :
  List.length (group_rows season_after (PStr "duke")) = 4%nat
  /\ fst (run_as_written season_log "Duke" 1) = Raise (NameError "feature_cols")
  /\ fst (run_as_meant season_log "Duke" 1)
     = Return (DataFrame (final_cols feature_list)
                 (rows_of Q Qmean season_after (PStr "duke") feature_list 1))
  /\ List.length (rows_of Q Qmean season_after (PStr "duke") feature_list 1) = 1%nat
  /\ List.length
       (filter (fun cur => negb (has_history season_after (PStr "duke") cur))
               (skipn 1 (group_rows season_after (PStr "duke")))) = 2%nat.
Proof. repeat split; vm_compute; reflexivity. Qed.

(** C3 at a failing input: duke's games stand in the frame dated the
    9th, the 1st and the 5th of January; the call ends in the [NameError]
    of line 103, before the [groupby] of line 119, so no log of duke is
    made and no row comes back, and the caller's frame holds the records
    in the order it had, which is not the order of their dates. *)
Theorem shuffled_log_ends_in_NameError :
  fst (run_as_written shuffled_log "Duke" 0) = Raise (NameError "feature_cols")
  /\ (forall cols rows,
        fst (run_as_written shuffled_log "Duke" 0) <> Return (DataFrame cols rows))
  /\ map (@Team Q) (snd (run_as_written shuffled_log "Duke" 0))
     = ["yale"; "duke"; "duke"; "duke"]
  /\ map (@Date Q) (snd (run_as_written shuffled_log "Duke" 0))
     = [Timestamp 750684; Timestamp 750704; Timestamp 750696; Timestamp 750700]
  /\ ~ Sorted date_le
        (map (@Date Q) (group_rows (snd (run_as_written shuffled_log "Duke" 0)) (PStr "duke"))).
Proof.
  split; [vm_compute; reflexivity|]. split.
  - intros cols rows H. vm_compute in H. discriminate.
  - split; [vm_compute; reflexivity|]. split; [vm_compute; reflexivity|].
    assert (E : map (@Date Q)
                  (group_rows (snd (run_as_written shuffled_log "Duke" 0)) (PStr "duke"))
                = [Timestamp 750704; Timestamp 750696; Timestamp 750700])
      by (vm_compute; reflexivity).
    rewrite E. apply not_ascending. lia.
Qed.

(** C8 fails as worded: after the call the first record of the caller's
    frame has a [home_name] and a timestamp where it had none, even though
    the call ended in an error. *)
Lemma call_changes_the_frame :
  option_map (@home_name Q) (hd_error season_log) = Some None
  /\ option_map (@Date Q) (hd_error season_log) = Some (DateStr "2018-01-01")
  /\ fst (run_as_written season_log "Duke" 1) = Raise (NameError "feature_cols")
  /\ option_map (@home_name Q) (hd_error (snd (run_as_written season_log "Duke" 1)))
     = Some (Some "duke")
  /\ option_map (@Date Q) (hd_error (snd (run_as_written season_log "Duke" 1)))
     = Some (Timestamp 750696)
  /\ snd (run_as_written season_log "Duke" 1) <> season_log.
Proof.
  repeat split; try (vm_compute; reflexivity).
  intros H. apply (f_equal (fun l => option_map (@home_name Q) (hd_error l))) in H.
  vm_compute in H. discriminate.
Qed.

(** C9 at a failing input: wofford is a known team without a record in
    the log; the call ends in the [NameError] of line 103, before the
    lookup of lines 119 to 124 that was to return [None]: it returns
    neither [None] nor an empty frame.  A name missing from the table ends
    in the normaliser's [KeyError]. *)
Theorem absent_team_ends_in_NameError :
  name_normalizer "Wofford" false false false = Return (PStr "wofford")
  /\ group_rows (snd (run_as_written season_log "Wofford" 0)) (PStr "wofford") = []
  /\ fst (run_as_written season_log "Wofford" 0) = Raise (NameError "feature_cols")
  /\ fst (run_as_written season_log "Wofford" 0) <> Return PyNone
  /\ (forall cols rows,
        fst (run_as_written season_log "Wofford" 0) <> Return (DataFrame cols rows))
  /\ fst (run_as_written season_log "Fictional University" 0)
     = Raise (KeyError (team_err_msg (lookup_key "Fictional University"))).
Proof.
  split; [vm_compute; reflexivity|]. split; [vm_compute; reflexivity|].
  split; [vm_compute; reflexivity|]. split.
  - intros H. vm_compute in H. discriminate.
  - split; [|vm_compute; reflexivity].
    intros cols rows H. vm_compute in H. discriminate.
Qed.

(** * Further facts *)

(** ** The enumerations *)

Lemma sorted_insert_In (x y : string) (l : list string) :
  In y (sorted_insert x l) <-> y = x \/ In y l.
Proof.
  induction l as [|z l IH]; simpl.
  - intuition.
  - destruct (String.leb x z); simpl; rewrite ?IH; intuition.
Qed.

Lemma np_sort_In (y : string) (l : list string) : In y (np_sort l) <-> In y l.
Proof.
  induction l as [|x l IH]; simpl; [tauto|].
  rewrite sorted_insert_In, IH. intuition.
Qed.

Lemma sorted_insert_NoDup (x : string) (l : list string) :
  ~ In x l -> NoDup l -> NoDup (sorted_insert x l).
Proof.
  induction l as [|z l IH]; simpl; intros Hx Hl.
  - constructor; [tauto | constructor].
  - destruct (String.leb x z).
    + constructor; [simpl; tauto | exact Hl].
    + inversion Hl as [|? ? Hz Hl']; subst. constructor.
      * rewrite sorted_insert_In. intuition.
      * apply IH; tauto.
Qed.

Lemma np_sort_NoDup (l : list string) : NoDup l -> NoDup (np_sort l).
Proof.
  induction 1 as [|x l Hx Hl IH]; simpl; [constructor|].
  apply sorted_insert_NoDup; [now rewrite np_sort_In | exact IH].
Qed.

Lemma leb_neq_ltb (a b : string) : String.leb a b = true -> a <> b -> String.ltb a b = true.
Proof.
  unfold String.leb, String.ltb. destruct (String.compare a b) eqn:E; try easy.
  intros _ Hne. apply String.compare_eq_iff in E. contradiction.
Qed.

Lemma leb_false_ltb (a b : string) : String.leb a b = false -> String.ltb b a = true.
Proof.
  unfold String.leb, String.ltb. rewrite (String.compare_antisym b a).
  destruct (String.compare a b); easy.
Qed.

(** Inserting a new element keeps a list strictly ascending. *)
Lemma sorted_insert_ascending (x : string) (l : list string) :
  ~ In x l ->
  Sorted (fun a b => String.ltb a b = true) l ->
  Sorted (fun a b => String.ltb a b = true) (sorted_insert x l).
Proof.
  induction l as [|z l IH]; simpl; intros Hx Hl.
  - repeat constructor.
  - destruct (String.leb x z) eqn:E.
    + constructor; [exact Hl|]. constructor.
      apply leb_neq_ltb; [exact E | intros ->; apply Hx; now left].
    + apply Sorted_inv in Hl. destruct Hl as [Hl Hz].
      constructor; [apply IH; tauto|].
      destruct l as [|w l]; simpl.
      * constructor. now apply leb_false_ltb.
      * destruct (String.leb x w).
        -- constructor. now apply leb_false_ltb.
        -- constructor. now apply HdRel_inv in Hz.
Qed.

Lemma np_sort_ascending (l : list string) :
  NoDup l -> Sorted (fun a b => String.ltb a b = true) (np_sort l).
Proof.
  induction 1 as [|x l Hx Hl IH]; simpl; [constructor|].
  apply sorted_insert_ascending; [now rewrite np_sort_In | exact IH].
Qed.

Lemma live_binding_found (d : list (string * string)) (v : string) :
  bindings_live d = true ->
  In v (dict_values d) -> exists k, dict_get d k = Some v.
Proof.
  unfold bindings_live, dict_values. rewrite forallb_forall. intros Hlive Hv.
  apply in_map_iff in Hv. destruct Hv as ([k w] & <- & Hkv).
  specialize (Hlive _ Hkv). simpl in *.
  destruct (dict_get d k) as [u|] eqn:E; [|discriminate].
  apply String.eqb_eq in Hlive. subst. now exists k.
Qed.

(** What [sorted(set(d.values()))] is, for a literal whose bindings are
    all live. *)
Lemma enumeration_facts (d : list (string * string)) :
  bindings_live d = true ->
  Sorted (fun a b => String.ltb a b = true) (np_sort (py_set (dict_values d)))
  /\ NoDup (np_sort (py_set (dict_values d)))
  /\ (forall v, In v (np_sort (py_set (dict_values d)))
                <-> exists k, dict_get d k = Some v).
Proof.
  intros Hlive. unfold py_set.
  split; [apply np_sort_ascending, NoDup_nodup|].
  split; [apply np_sort_NoDup, NoDup_nodup|].
  intros v. rewrite np_sort_In, nodup_In. split.
  - now apply live_binding_found.
  - intros (k & Hk). exact (dict_get_value _ _ _ Hk).
Qed.

Lemma conf_values_fixed :
  forallb (fun v => match conf_name_normalizer v false, conf_name_normalizer v true with
                    | Return (PStr w), Return (PStr u) => String.eqb w v && String.eqb u v
                    | _, _ => false
                    end)
          (dict_values __conf_name) = true.
Proof. vm_compute. reflexivity. Qed.

Lemma conf_value_fixed (v : string) (ignore_errors : bool) :
  In v (dict_values __conf_name) ->
  conf_name_normalizer v ignore_errors = Return (PStr v).
Proof.
  pose proof conf_values_fixed as H. rewrite forallb_forall in H.
  intros Hv. specialize (H v Hv).
  destruct (conf_name_normalizer v false) as [[w| | |]|] eqn:Ef; try discriminate.
  destruct (conf_name_normalizer v true) as [[u| | |]|] eqn:Et; try discriminate.
  apply andb_true_iff in H. destruct H as [H1 H2].
  apply String.eqb_eq in H1, H2. subst. now destruct ignore_errors.
Qed.

(** X1: [get_all_teams()] is strictly ascending, has no duplicate, lists
    exactly the identifiers a lookup in the team table can give, and each
    of them goes through [name_normalizer] unchanged and without error. *)
Theorem get_all_teams_enumerates_ids :
  Sorted (fun a b => String.ltb a b = true) get_all_teams
  /\ NoDup get_all_teams
  /\ (forall v, In v get_all_teams <-> exists k, dict_get __team_names k = Some v)
  /\ (forall v, In v get_all_teams ->
                name_normalizer v false false false = Return (PStr v)).
Proof.
  assert (Hlive : bindings_live __team_names = true) by (vm_compute; reflexivity).
  destruct (enumeration_facts _ Hlive) as (Hs & Hn & Hin).
  unfold get_all_teams.
  split; [exact Hs|]. split; [exact Hn|]. split; [exact Hin|].
  intros v Hv. apply (proj1 (Hin v)) in Hv. destruct Hv as (k & Hk).
  apply dict_get_value in Hk. clear Hlive Hs Hn Hin. fixed_from_table Hall v Hk.
Qed.

(** X2: [get_all_confs()] is strictly ascending, has no duplicate, lists
    exactly the identifiers a lookup in the conference table can give, and
    [conf_name_normalizer] returns each of them unchanged. *)
Theorem get_all_confs_enumerates_ids :
  Sorted (fun a b => String.ltb a b = true) get_all_confs
  /\ NoDup get_all_confs
  /\ (forall v, In v get_all_confs <-> exists k, dict_get __conf_name k = Some v)
  /\ (forall v ignore_errors, In v get_all_confs ->
                conf_name_normalizer v ignore_errors = Return (PStr v)).
Proof.
  assert (Hlive : bindings_live __conf_name = true) by (vm_compute; reflexivity).
  destruct (enumeration_facts _ Hlive) as (Hs & Hn & Hin).
  unfold get_all_confs.
  split; [exact Hs|]. split; [exact Hn|]. split; [exact Hin|].
  intros v ignore_errors Hv. apply (proj1 (Hin v)) in Hv. destruct Hv as (k & Hk).
  clear Hlive Hs Hn Hin. apply conf_value_fixed. exact (dict_get_value _ _ _ Hk).
Qed.

(** X3: [conf_name_normalizer] is idempotent: an identifier it has
    returned for some name is returned unchanged when normalised again,
    with either setting of [ignore_errors]. *)
Theorem conf_name_normalizer_idempotent (name v : string) (b b' : bool) :
  conf_name_normalizer name b = Return (PStr v) ->
  conf_name_normalizer v b' = Return (PStr v).
Proof.
  unfold conf_name_normalizer at 1.
  destruct (dict_get __conf_name (conf_key name)) as [w|] eqn:Hk.
  - intros [= <-]. apply conf_value_fixed. exact (dict_get_value _ _ _ Hk).
  - destruct b; discriminate.
Qed.

Lemma conf_name_normalizer_idempotent_witness :
  conf_name_normalizer "Pac 12 (South)" false = Return (PStr "pac-12")
  /\ conf_name_normalizer "pac-12" true = Return (PStr "pac-12").
Proof.
  assert (H : conf_name_normalizer "Pac 12 (South)" false = Return (PStr "pac-12"))
    by (vm_compute; reflexivity).
  split; [exact H|].
  exact (conf_name_normalizer_idempotent "Pac 12 (South)" "pac-12" false true H).
Defined.

(** ** Case and margins *)

Lemma lower_char_space (c : ascii) : is_space (lower_char c) = is_space c.
Proof.
  destruct c as [b0 b1 b2 b3 b4 b5 b6 b7].
  destruct b0, b1, b2, b3, b4, b5, b6, b7; reflexivity.
Qed.

Lemma lower_char_twice (c : ascii) : lower_char (lower_char c) = lower_char c.
Proof.
  destruct c as [b0 b1 b2 b3 b4 b5 b6 b7].
  destruct b0, b1, b2, b3, b4, b5, b6, b7; reflexivity.
Qed.

Lemma lower_twice (s : string) : lower (lower s) = lower s.
Proof. induction s as [|c s IH]; simpl; [reflexivity | now rewrite lower_char_twice, IH]. Qed.

Lemma lower_append (a b : string) : lower (a ++ b) = lower a ++ lower b.
Proof. induction a as [|c a IH]; simpl; [reflexivity | now rewrite IH]. Qed.

Lemma blank_lower (w : string) : blank (lower w) = blank w.
Proof. induction w as [|c w IH]; simpl; [reflexivity | now rewrite lower_char_space, IH]. Qed.

Lemma lstrip_blank (w s : string) : blank w = true -> lstrip (w ++ s) = lstrip s.
Proof.
  induction w as [|c w IH]; simpl; [reflexivity|].
  intros H. apply andb_true_iff in H. destruct H as [-> H]. now apply IH.
Qed.

Lemma rstrip_blank (w : string) : blank w = true -> rstrip w = "".
Proof.
  induction w as [|c w IH]; simpl; [reflexivity|].
  intros H. apply andb_true_iff in H. destruct H as [-> H]. now rewrite IH.
Qed.

Lemma rstrip_append_blank (s w : string) : blank w = true -> rstrip (s ++ w) = rstrip s.
Proof.
  intros H. induction s as [|c s IH]; simpl; [now apply rstrip_blank | now rewrite IH].
Qed.

Lemma strip_margins (pre s post : string) :
  blank pre = true -> blank post = true -> strip (pre ++ s ++ post) = strip s.
Proof.
  intros Hpre Hpost. unfold strip. rewrite (lstrip_blank _ _ Hpre).
  induction s as [|c s IH]; simpl.
  - rewrite <- (append_nil_r post), (lstrip_blank _ _ Hpost). reflexivity.
  - destruct (is_space c); [exact IH|].
    change (String c (s ++ post)) with (String c s ++ post).
    now apply rstrip_append_blank.
Qed.

(** What [name_normalizer] and [conf_name_normalizer] see of a name. *)
Lemma cleaned_text (name pre post : string) :
  blank pre = true -> blank post = true ->
  strip (lower (pre ++ name ++ post)) = strip (lower name)
  /\ strip (lower (lower name)) = strip (lower name).
Proof.
  intros Hpre Hpost. split; [|now rewrite lower_twice].
  rewrite !lower_append. apply strip_margins; now rewrite blank_lower.
Qed.

Lemma name_normalizer_by_text (a b : string) (m r i : bool) :
  strip (lower a) = strip (lower b) -> name_normalizer a m r i = name_normalizer b m r i.
Proof.
  intros H. assert (Ht : tokens a = tokens b) by (unfold tokens; now rewrite H).
  unfold name_normalizer, lookup_key, b_march_madness. now rewrite Ht.
Qed.

Lemma conf_name_normalizer_by_text (a b : string) (i : bool) :
  strip (lower a) = strip (lower b) -> conf_name_normalizer a i = conf_name_normalizer b i.
Proof.
  intros H. unfold conf_name_normalizer, conf_key. now rewrite H.
Qed.

(** X4: [name_normalizer] does not see letter case nor whitespace around
    the name: a name padded with whitespace on either side, or put in
    lower case, gives the same result or the same error, whatever the
    flags. *)
Theorem name_normalizer_ignores_case_and_margins
    (name pre post : string) (made_tourney return_both ignore_errors : bool) :
  blank pre = true -> blank post = true ->
  name_normalizer (pre ++ name ++ post) made_tourney return_both ignore_errors
  = name_normalizer name made_tourney return_both ignore_errors
  /\ name_normalizer (lower name) made_tourney return_both ignore_errors
     = name_normalizer name made_tourney return_both ignore_errors.
Proof.
  intros Hpre Hpost. destruct (cleaned_text name pre post Hpre Hpost) as [H1 H2].
  split; now apply name_normalizer_by_text.
Qed.

Lemma name_normalizer_ignores_case_and_margins_witness :
  name_normalizer ("  " ++ "DUKE" ++ " ") false false false
  = name_normalizer "DUKE" false false false
  /\ name_normalizer (lower "DUKE") false false false
     = name_normalizer "DUKE" false false false
  /\ name_normalizer "DUKE" false false false = Return (PStr "duke").
Proof.
  destruct (name_normalizer_ignores_case_and_margins "DUKE" "  " " " false false false
              eq_refl eq_refl) as [H1 H2].
  split; [exact H1|]. split; [exact H2|]. vm_compute. reflexivity.
Defined.

(** X5: [conf_name_normalizer] does not see letter case nor whitespace
    around the name either. *)
Theorem conf_name_normalizer_ignores_case_and_margins
    (name pre post : string) (ignore_errors : bool) :
  blank pre = true -> blank post = true ->
  conf_name_normalizer (pre ++ name ++ post) ignore_errors
  = conf_name_normalizer name ignore_errors
  /\ conf_name_normalizer (lower name) ignore_errors
     = conf_name_normalizer name ignore_errors.
Proof.
  intros Hpre Hpost. destruct (cleaned_text name pre post Hpre Hpost) as [H1 H2].
  split; now apply conf_name_normalizer_by_text.
Qed.

Lemma conf_name_normalizer_ignores_case_and_margins_witness :
  conf_name_normalizer (" " ++ "ACC" ++ "  ") false = conf_name_normalizer "ACC" false
  /\ conf_name_normalizer (lower "ACC") false = conf_name_normalizer "ACC" false
  /\ conf_name_normalizer "ACC" false = Return (PStr "acc").
Proof.
  destruct (conf_name_normalizer_ignores_case_and_margins "ACC" " " "  " false
              eq_refl eq_refl) as [H1 H2].
  split; [exact H1|]. split; [exact H2|]. vm_compute. reflexivity.
Defined.

(** ** The characters of a lookup key *)

Lemma has_char_append (x : ascii) (a b : string) :
  has_char x (a ++ b) = has_char x a || has_char x b.
Proof. induction a as [|c a IH]; simpl; [reflexivity | now rewrite IH, orb_assoc]. Qed.

Lemma prefix_empty (s : string) : prefix "" s = true.
Proof. now destruct s. Qed.

(** Replacing one character: what is left is of the old text, and not
    that character, or is of the new text. *)
Lemma replace_char_chars (c x : ascii) (new s : string) :
  has_char x (replace (String c "") new s) = true ->
  has_char x new = true \/ (has_char x s = true /\ x <> c).
Proof.
  unfold replace. induction s as [|a s IH]; simpl; [discriminate|].
  destruct (ascii_dec c a) as [<-|Hne].
  - rewrite prefix_empty, has_char_append. intros H.
    apply orb_true_iff in H. destruct H as [H|H]; [now left|].
    destruct (IH H) as [H'|[H' Hx]]; [now left | right].
    split; [now rewrite H', orb_true_r | exact Hx].
  - simpl. intros H. apply orb_true_iff in H. destruct H as [H|H].
    + right. apply Ascii.eqb_eq in H. subst x.
      split; [now rewrite Ascii.eqb_refl | congruence].
    + destruct (IH H) as [H'|[H' Hx]]; [now left | right].
      split; [now rewrite H', orb_true_r | exact Hx].
Qed.

Lemma remove_junk_chars (x : ascii) (s : string) :
  has_char x (remove_junk s) = true ->
  has_char x s = true
  /\ x <> "&"%char /\ x <> "("%char /\ x <> ")"%char /\ x <> "'"%char /\ x <> "."%char.
Proof.
  unfold remove_junk, junk_chars. cbn [fold_left]. intros H.
  repeat match type of H with
         | has_char _ (replace _ "" _) = true =>
             apply replace_char_chars in H;
             destruct H as [H|[H ?]]; [discriminate|]
         end.
  tauto.
Qed.

Lemma snoc_chars (x c : ascii) (tok : string) :
  has_char x (snoc tok c) = has_char x tok || Ascii.eqb c x.
Proof. unfold snoc. rewrite has_char_append. simpl. now rewrite orb_false_r. Qed.

Lemma split_on_go_chars (sep x : ascii) (s tok t : string) :
  In t (split_on_go sep s tok) ->
  has_char x t = true ->
  has_char x tok = true \/ (has_char x s = true /\ x <> sep).
Proof.
  revert tok. induction s as [|c s IH]; simpl; intros tok Hin Hx.
  - destruct Hin as [<-|[]]. now left.
  - destruct (Ascii.eqb_spec c sep) as [->|Hne].
    + destruct Hin as [<-|Hin]; [now left|].
      destruct (IH _ Hin Hx) as [H|[H Hs]]; [discriminate | right].
      split; [now rewrite H, orb_true_r | exact Hs].
    + destruct (IH _ Hin Hx) as [H|[H Hs]].
      * rewrite snoc_chars in H. apply orb_true_iff in H.
        destruct H as [H|H]; [now left | right].
        apply Ascii.eqb_eq in H. subst x.
        split; [now rewrite Ascii.eqb_refl | exact Hne].
      * right. split; [now rewrite H, orb_true_r | exact Hs].
Qed.

Lemma california_chars (x : ascii) :
  has_char x "california" = true -> forallb (fun c => negb (Ascii.eqb c x)) (("-"%char) :: cleared_chars) = true.
Proof.
  cbn [has_char]. intros H.
  repeat (apply orb_true_iff in H; destruct H as [H|H];
          [apply Ascii.eqb_eq in H; subst x; reflexivity|]).
  discriminate.
Qed.

(** The tokens: none is empty or "uc", none holds a space, a hyphen or a
    junk character. *)
Lemma token_shape (name t : string) :
  In t (tokens name) ->
  t <> "" /\ t <> "uc"
  /\ forall x, has_char x t = true ->
               forallb (fun c => negb (Ascii.eqb c x)) (("-"%char) :: cleared_chars) = true.
Proof.
  unfold tokens. intros H. apply filter_In in H. destruct H as [H Hne].
  apply in_map_iff in H. destruct H as (t0 & Ht & H).
  split; [intros ->; discriminate|].
  destruct (String.eqb_spec t0 "uc") as [Huc|Huc]; rewrite <- Ht.
  - split; [discriminate|]. exact california_chars.
  - split; [exact Huc|]. intros x Hx.
    destruct (split_on_go_chars _ x _ _ _ H Hx) as [Hx'|[Hx' Hsp]]; [discriminate|].
    apply replace_char_chars in Hx'. destruct Hx' as [Hx'|[Hx' Hhy]].
    + cbn [has_char] in Hx'. rewrite orb_false_r in Hx'.
      apply Ascii.eqb_eq in Hx'. congruence.
    + apply remove_junk_chars in Hx'. destruct Hx' as (_ & H1 & H2 & H3 & H4 & H5).
      unfold cleared_chars. cbn [forallb].
      repeat rewrite (proj2 (Ascii.eqb_neq _ _)) by congruence. reflexivity.
Qed.

Lemma join_chars (x : ascii) (toks : list string) :
  has_char x (join "-" toks) = true ->
  x = "-"%char \/ exists t, In t toks /\ has_char x t = true.
Proof.
  unfold join. induction toks as [|t toks IH]; simpl; [discriminate|].
  destruct toks as [|u toks].
  - intros H. right. exists t. split; [now left | exact H].
  - rewrite !has_char_append. intros H.
    apply orb_true_iff in H. destruct H as [H|H].
    + right. exists t. split; [now left | exact H].
    + cbn [has_char] in H. apply orb_true_iff in H. destruct H as [H|H].
      * left. apply Ascii.eqb_eq in H. now subst.
      * destruct (IH H) as [Hx|(t' & Ht' & Hx)]; [now left | right].
        exists t'. split; [now right | exact Hx].
Qed.

Lemma removelast_incl {A : Type} (l : list A) (t : A) : In t (removelast l) -> In t l.
Proof.
  induction l as [|a l IH]; simpl; [tauto|].
  destruct l; [tauto|]. intros [H|H]; [now left | right; now apply IH].
Qed.

Lemma lookup_key_chars (name : string) (x : ascii) :
  has_char x (lookup_key name) = true ->
  forallb (fun c => negb (Ascii.eqb c x)) cleared_chars = true.
Proof.
  unfold lookup_key. intros H.
  assert (Hj : x = "-"%char \/ exists t, In t (tokens name) /\ has_char x t = true).
  { destruct (has_ncaa (tokens name)); apply join_chars in H;
      destruct H as [H|(t & Ht & H)]; try (now left); right; exists t; split;
      try exact H; try exact Ht. now apply removelast_incl. }
  destruct Hj as [->|(t & Ht & Hx)]; [reflexivity|].
  destruct (token_shape _ _ Ht) as (_ & _ & Hc). specialize (Hc x Hx).
  cbn [forallb] in Hc. apply andb_true_iff in Hc. destruct Hc as [_ Hc]. exact Hc.
Qed.

(** X6: the key that [name_normalizer] looks up never holds a space nor
    one of the characters & ( ) ' . and no token of it is empty or "uc";
    hence no name reaches a table key that holds such a character, and the
    table has exactly two of those. *)
Theorem lookup_key_alphabet (name : string) :
  (forall x, In x cleared_chars -> has_char x (lookup_key name) = false)
  /\ (forall t, In t (tokens name) -> t <> "" /\ t <> "uc")
  /\ (forall k x, In x cleared_chars -> has_char x k = true -> lookup_key name <> k)
  /\ filter (fun k => existsb (fun x => has_char x k) cleared_chars)
            (map fst __team_names)
     = ["centenary (la)"; "n.c.-state"].
Proof.
  assert (Hclear : forall x, In x cleared_chars -> has_char x (lookup_key name) = false).
  { intros x Hx. destruct (has_char x (lookup_key name)) eqn:E; [|reflexivity].
    apply lookup_key_chars in E. rewrite forallb_forall in E.
    specialize (E x Hx). now rewrite Ascii.eqb_refl in E. }
  split; [exact Hclear|]. split.
  - intros t Ht. destruct (token_shape _ _ Ht) as (H1 & H2 & _). now split.
  - split; [|vm_compute; reflexivity].
    intros k x Hx Hk E. rewrite <- E, (Hclear x Hx) in Hk. discriminate.
Qed.

(** ** The "st." step, further *)

(** X7: the test of the last token is made before "ncaa" is taken off:
    when the text ends with the token "ncaa" and does not start with the
    token "st.", the "st." step changes nothing, so a "st." that stands
    last but for "ncaa" is not expanded to "state". *)
Theorem trailing_ncaa_blocks_state (s : string) :
  last_token s = "ncaa" -> first_token s <> "st." -> expand_st s = s.
Proof.
  intros Hlast Hfirst. unfold expand_st.
  destruct (contains "st." s); [|reflexivity].
  destruct (String.eqb_spec (first_token s) "st."); [contradiction|].
  rewrite Hlast. reflexivity.
Qed.

Lemma trailing_ncaa_blocks_state_witness :
  expand_st "ohio st. ncaa" = "ohio st. ncaa"
  /\ lookup_key "Ohio St. NCAA" = "ohio-st"
  /\ lookup_key "Ohio St." = "ohio-state"
  /\ name_normalizer "Ohio St." false false true = Return (PStr "ohio-state")
  /\ name_normalizer "Ohio St. NCAA" false false true = Return PNaN.
Proof.
  split.
  - apply (trailing_ncaa_blocks_state "ohio st. ncaa"); [reflexivity|].
    vm_compute. discriminate.
  - repeat split; vm_compute; reflexivity.
Defined.

(** X8: the indexing [tmp[0]] and [tmp[-1]] of the "st." step cannot
    fail: whenever the text holds "st." its split has at least one token,
    and the first and the last token read are tokens of it. *)
Theorem st_step_indexes_in_range (s : string) :
  contains "st." s = true ->
  split_ws s <> []
  /\ In (first_token s) (split_ws s)
  /\ In (last_token s) (split_ws s).
Proof.
  intros H. apply (st_dot_starts_token s "") in H. fold (split_ws s) in H.
  unfold first_token, last_token. destruct (split_ws s) as [|t l]; [contradiction|].
  split; [discriminate|]. split; [now left|].
  apply exists_last in H. destruct H as (l' & a & ->).
  rewrite last_last. apply in_or_app. right. now left.
Qed.

Lemma st_step_indexes_in_range_witness :
  contains "st." "mount st. mary's" = true
  /\ In (first_token "mount st. mary's") (split_ws "mount st. mary's")
  /\ In (last_token "mount st. mary's") (split_ws "mount st. mary's").
Proof.
  assert (H : contains "st." "mount st. mary's" = true) by reflexivity.
  split; [exact H|]. exact (proj2 (st_step_indexes_in_range "mount st. mary's" H)).
Defined.

(** ** Conference names with a directional qualifier *)

Lemma dict_get_binding (d : list (string * string)) (k v : string) :
  dict_get d k = Some v -> In (k, v) d.
Proof.
  induction d as [|[k' w] d IH]; simpl; [discriminate|].
  destruct (dict_get d k) as [u|].
  - intros E. right. apply IH. exact E.
  - destruct (String.eqb_spec k' k) as [->|_]; [|discriminate].
    intros [= ->]. now left.
Qed.

(** X18: when the text of a conference name holds one of the qualifiers
    (east), (west), (south), (north), the key looked up holds no space, so
    no binding of the table whose key holds a space can answer: when such
    a name resolves, it does so through a key without a space that is the
    key the function built. *)
Theorem qualified_conf_key_has_no_space (name : string) :
  contains "(east)" (strip (lower name))
  || contains "(west)" (strip (lower name))
  || contains "(south)" (strip (lower name))
  || contains "(north)" (strip (lower name)) = true ->
  has_char " " (conf_key name) = false
  /\ (forall k, has_char " " k = true -> conf_key name <> k)
  /\ (forall v ignore_errors,
        conf_name_normalizer name ignore_errors = Return (PStr v) ->
        exists k, In (k, v) __conf_name /\ has_char " " k = false
                  /\ k = join "-" (drop_last (split_on " " (strip (lower name))))).
Proof.
  intros H.
  assert (Hk : conf_key name = join "-" (drop_last (split_on " " (strip (lower name)))))
    by (unfold conf_key; now rewrite H).
  assert (Hs : has_char " " (conf_key name) = false).
  { rewrite Hk.
    destruct (has_char " " (join "-" (drop_last (split_on " " (strip (lower name))))))
      eqn:E; [|reflexivity].
    apply join_chars in E. destruct E as [E|(t & Ht & E)]; [discriminate|].
    apply removelast_incl in Ht.
    destruct (split_on_go_chars _ _ _ _ _ Ht E) as [E'|[_ E']];
      [discriminate | congruence]. }
  split; [exact Hs|]. split.
  - intros k Hsp E. rewrite E in Hs. congruence.
  - intros v ignore_errors Hr. unfold conf_name_normalizer in Hr.
    destruct (dict_get __conf_name (conf_key name)) as [w|] eqn:Hd.
    + injection Hr as <-. exists (conf_key name).
      split; [exact (dict_get_binding _ _ _ Hd)|]. split; [exact Hs | exact Hk].
    + destruct ignore_errors; discriminate.
Qed.

Lemma qualified_conf_key_has_no_space_witness :
  has_char " " (conf_key "Big East (West)") = false
  /\ conf_key "Big East (West)" = "big-east"
  /\ conf_key "ACC (East)" = "acc"
  /\ conf_name_normalizer "Big East (West)" false = Return (PStr "big-east")
  /\ conf_name_normalizer "ACC (East)" false = Return (PStr "acc")
  /\ conf_name_normalizer "Big East Conference" false = Return (PStr "big-east")
  /\ conf_key "Big East Conference (West)" = "big-east-conference"
  /\ conf_name_normalizer "Big East Conference (West)" true = Return PNaN
  /\ conf_key "big east conference" <> conf_key "Big East (West)".
Proof.
  pose proof (qualified_conf_key_has_no_space "Big East (West)" eq_refl) as [H1 [H2 _]].
  split; [exact H1|]. repeat split; try (vm_compute; reflexivity).
  intros E. apply (H2 (conf_key "big east conference")); [vm_compute; reflexivity|].
  symmetry. exact E.
Defined.


(** ** The game-log call, further *)

Section GameLogFurther.

Variable num : Type.
Variable add : num -> num -> num.
Variable nanmean : list num -> num.
Variable to_datetime : string -> option Z.

Local Abbreviation add_columns := (add_columns num add).
Local Abbreviation parse_dates := (parse_dates num to_datetime).
Local Abbreviation process_with := (process_game_logs_with num add nanmean to_datetime).
Local Abbreviation process_game_logs := (process_game_logs num add nanmean to_datetime).

(** X9: as Python runs it the call never returns.  An unknown team gives
    the normaliser's [KeyError] and leaves the frame alone; a date that
    does not parse gives a [ValueError] after the four columns are set;
    every other call ends in the [NameError] of line 103. *)
Theorem process_game_logs_always_raises (df : frame num) (team : string)
    (skip_first_n : nat) :
  (exists e, fst (process_game_logs df team skip_first_n) = Raise e)
  /\ match name_normalizer team false false false with
     | Raise e => process_game_logs df team skip_first_n = (Raise e, df)
     | Return _ =>
         match parse_dates (map add_columns df) with
         | None =>
             process_game_logs df team skip_first_n
             = (Raise (ValueError "time data doesn't match format"), map add_columns df)
         | Some df2 =>
             process_game_logs df team skip_first_n
             = (Raise (NameError "feature_cols"), df2)
         end
     end.
Proof.
  unfold process_game_logs, process_game_logs_with.
  destruct (name_normalizer team false false false) as [r|e].
  - destruct (parse_dates (map add_columns df)) as [df2|].
    + split; [eexists|]; reflexivity.
    + split; [eexists|]; reflexivity.
  - split; [eexists|]; reflexivity.
Qed.

Lemma add_columns_twice (x : game num) : add_columns (add_columns x) = add_columns x.
Proof. reflexivity. Qed.

Lemma parse_cell_timestamp (d d' : date_cell) :
  parse_cell to_datetime d = Some d' -> parse_cell to_datetime d' = Some d'.
Proof.
  destruct d as [s|t]; simpl.
  - destruct (to_datetime s); simpl; [intros [= <-]; reflexivity | discriminate].
  - intros [= <-]. reflexivity.
Qed.

(** The frame a call has converted converts to itself. *)
Lemma parse_dates_again (df df2 : frame num) :
  parse_dates (map add_columns df) = Some df2 ->
  parse_dates (map add_columns df2) = Some df2.
Proof.
  revert df2. induction df as [|x df IH]; simpl; intros df2.
  - intros [= <-]. reflexivity.
  - destruct (parse_cell to_datetime (Date x)) as [d|] eqn:Hd; [|discriminate].
    destruct (parse_dates (map add_columns df)) as [rest|];
      [|discriminate].
    intros [= <-]. simpl. rewrite (parse_cell_timestamp _ _ Hd), (IH rest eq_refl).
    reflexivity.
Qed.

Lemma parse_dates_stuck (df : frame num) :
  parse_dates (map add_columns df) = None ->
  parse_dates (map add_columns (map add_columns df)) = None.
Proof.
  intros H. rewrite map_map. erewrite map_ext; [exact H|]. apply add_columns_twice.
Qed.

(** X10: what the call does to the caller's frame it does once: after a
    call for a known team, a further call, for whatever team and under
    whatever reading of the names, leaves the frame as the first call
    left it. *)
Theorem second_call_keeps_frame (rd rd' : reading) (df : frame num)
    (team team' : string) (skip_first_n skip_first_n' : nat) (v : pyval) :
  name_normalizer team false false false = Return v ->
  snd (process_with rd' (snd (process_with rd df team skip_first_n)) team' skip_first_n')
  = snd (process_with rd df team skip_first_n).
Proof.
  intros Hn. unfold process_game_logs_with. rewrite Hn.
  destruct (parse_dates (map add_columns df)) as [df2|] eqn:Hp;
    cbn [snd]; destruct (name_normalizer team' false false false); try reflexivity.
  - now rewrite (parse_dates_again _ _ Hp).
  - rewrite (parse_dates_stuck _ Hp). cbn [snd]. rewrite map_map.
    apply map_ext, add_columns_twice.
Qed.

End GameLogFurther.

(** ** The clean-up of a scraped log *)

Lemma split_ws_blank (s : string) : split_ws s = [] <-> blank s = true.
Proof.
  unfold split_ws. induction s as [|c s IH]; simpl; [tauto|].
  destruct (is_space c); simpl; [exact IH|].
  split; [|discriminate].
  intros H. exfalso. revert H. apply split_ws_go_pending, snoc_not_empty.
Qed.

Lemma first_word_spec (cell : string) :
  first_word cell
  = if blank cell then Raise (IndexError "list index out of range")
    else Return (first_token cell).
Proof.
  unfold first_word, first_token.
  destruct (split_ws cell) as [|t l] eqn:E.
  - apply split_ws_blank in E. now rewrite E.
  - destruct (blank cell) eqn:B; [|reflexivity].
    apply split_ws_blank in B. congruence.
Qed.

Lemma apply_first_word (col : list string) :
  apply_column first_word col
  = if existsb blank col then Raise (IndexError "list index out of range")
    else Return (map first_token col).
Proof.
  induction col as [|cell col IH]; simpl; [reflexivity|].
  rewrite first_word_spec. destruct (blank cell); simpl; [reflexivity|].
  rewrite IH. now destruct (existsb blank col).
Qed.

(** The first word of a text that starts with a letter and a space. *)
Lemma first_token_letter (c : ascii) (note : string) :
  is_space c = false -> first_token (String c (String " " note)) = String c "".
Proof.
  intros H. unfold first_token, split_ws. simpl. rewrite H. reflexivity.
Qed.

(** X15: the [team_won] column is made from the first word of each cell
    alone: a cell gives 1 when that word is "W" and 0 otherwise, so what
    follows "W" or "L" after a space, such as an overtime note, does not
    count; a cell without any word ends the call with an [IndexError]. *)
Theorem team_won_reads_first_word (col : list string) (note : string) :
  team_won_column col
  = (if existsb blank col then Raise (IndexError "list index out of range")
     else Return (map (fun cell => won_flag (first_token cell)) col))
  /\ team_won_column [String "W" (String " " note)] = Return [1%Z]
  /\ team_won_column [String "L" (String " " note)] = Return [0%Z].
Proof.
  assert (H : forall l, team_won_column l
              = if existsb blank l then Raise (IndexError "list index out of range")
                else Return (map (fun cell => won_flag (first_token cell)) l)).
  { intros l. unfold team_won_column. rewrite apply_first_word.
    destruct (existsb blank l); simpl; [reflexivity | now rewrite map_map]. }
  split; [apply H|].
  split; rewrite H; cbn [existsb blank map]; rewrite first_token_letter by reflexivity;
    reflexivity.
Qed.

Lemma normalized_cell_spec (cell : option string) :
  normalized_cell cell
  = Return (match opp_id cell with Some v => PStr v | None => PNaN end).
Proof.
  unfold normalized_cell, opp_id, name_normalizer, bind.
  now destruct (dict_get __team_names (lookup_key (cell_text cell))).
Qed.

Lemma apply_normalized_cell (cells : list (option string)) :
  apply_column normalized_cell cells
  = Return (map (fun cell => match opp_id cell with Some v => PStr v | None => PNaN end)
                cells).
Proof.
  induction cells as [|c cells IH]; simpl; [reflexivity|].
  now rewrite normalized_cell_spec, IH.
Qed.

(** X16: with [normalize_names] the clean-up of the opponents never
    fails; it keeps, in order, exactly the rows whose opponent's name
    resolves in the team table, a NaN cell not being one, and puts the
    table's identifier in place of the name; each identifier so kept is
    one [name_normalizer] accepts and returns unchanged. *)
Theorem clean_opponents_keeps_known {A : Type} (rows : list (option string * A)) :
  clean_opponents true rows = Return (known_opponents rows)
  /\ opp_id None = None
  /\ (List.length (known_opponents rows) <= List.length rows)%nat
  /\ Forall (fun row => name_normalizer (fst row) false false false
                        = Return (PStr (fst row)))
            (known_opponents rows).
Proof.
  split.
  { unfold clean_opponents, known_opponents. rewrite apply_normalized_cell.
    cbn [bind]. f_equal.
    induction rows as [|[c a] rows IH]; [reflexivity|].
    unfold dropna in *. cbn [map fst snd combine flat_map]. rewrite IH.
    now destruct (opp_id c). }
  split; [vm_compute; reflexivity|]. unfold known_opponents. split.
  - induction rows as [|[c a] rows IH]; cbn [flat_map List.length fst snd]; [lia|].
    rewrite length_app. destruct (opp_id c); cbn [List.length]; lia.
  - apply Forall_forall. intros [v a] Hin. apply in_flat_map in Hin.
    destruct Hin as ([c a'] & _ & Hin). cbn [fst snd] in *. unfold opp_id in Hin.
    destruct (dict_get __team_names (lookup_key (cell_text c))) as [w|] eqn:E;
      [|contradiction].
    destruct Hin as [[= <- <-]|[]].
    apply dict_get_value in E. fixed_from_table Hall w E.
Qed.

(** ** Medians of lists of unequal length *)

Section MedianFacts.

Variable num : Type.
Variable nanmedian : list num -> num.

Local Abbreviation zip_longest_from := (zip_longest_from num).
Local Abbreviation median_unequal_arr := (median_unequal_arr num nanmedian).

(** The [i]-th tuple of [zip_longest]. *)
Local Abbreviation column_at i x :=
  (map (fun row : list (option num) =>
          match nth_error row i with Some v => v | None => None end) x).

Lemma zip_longest_from_length (n : nat) (x : list (list (option num))) :
  List.length (zip_longest_from n x) = n.
Proof. revert x. induction n as [|n IH]; intros x; simpl; [reflexivity | now rewrite IH]. Qed.

Lemma zip_longest_from_nth (n i : nat) (x : list (list (option num))) :
  (i < n)%nat -> nth_error (zip_longest_from n x) i = Some (column_at i x).
Proof.
  revert i x. induction n as [|n IH]; intros i x Hi; [lia|].
  destruct i as [|i]; simpl.
  - f_equal. unfold heads. apply map_ext. now intros [|v row].
  - rewrite IH by lia. f_equal. rewrite map_map.
    apply map_ext. now intros [|v row]; destruct i.
Qed.

(** X17: [median_unequal_arr] gives one median per position of the
    longest list; the median at position [i] is taken over the values the
    lists hold at [i], where the lists that are too short and the [None]
    entries leave nothing. *)
Theorem median_unequal_arr_by_position (x : list (list (option num))) (i : nat) :
  (i < list_max (map (@List.length (option num)) x))%nat ->
  List.length (median_unequal_arr x) = list_max (map (@List.length (option num)) x)
  /\ nth_error (median_unequal_arr x) i = Some (nanmedian (values_at num i x)).
Proof.
  intros Hi. unfold median_unequal_arr, zip_longest.
  split; [now rewrite length_map, zip_longest_from_length|].
  rewrite nth_error_map, zip_longest_from_nth by exact Hi.
  cbn [option_map]. unfold __median, present, values_at. do 2 f_equal.
  clear Hi. induction x as [|r x IH]; simpl; [reflexivity|]. rewrite IH.
  now destruct (nth_error r i) as [[v|]|].
Qed.

End MedianFacts.
(** ** The further facts on the example log *)

Lemma second_call_keeps_frame_witness :
  name_normalizer "Duke" false false false = Return (PStr "duke")
  /\ snd (run_as_meant (snd (run_as_written season_log "Duke" 1)) "Yale" 0)
     = snd (run_as_written season_log "Duke" 1).
Proof.
  assert (H : name_normalizer "Duke" false false false = Return (PStr "duke"))
    by (vm_compute; reflexivity).
  split; [exact H|].
  exact (second_call_keeps_frame Q Qplus Qmean parse_ymd as_written as_meant season_log
           "Duke" "Yale" 1 0 (PStr "duke") H).
Defined.

Lemma median_unequal_arr_by_position_witness :
  median_unequal_arr Z middle [[Some 1; Some 4]; [Some 3]; [None; Some 5; Some 9]]%Z
  = [3; 5; 9]%Z
  /\ values_at Z 1 [[Some 1; Some 4]; [Some 3]; [None; Some 5; Some 9]]%Z = [4; 5]%Z
  /\ nth_error
       (median_unequal_arr Z middle [[Some 1; Some 4]; [Some 3]; [None; Some 5; Some 9]]%Z) 1
     = Some (middle (values_at Z 1 [[Some 1; Some 4]; [Some 3]; [None; Some 5; Some 9]]%Z)).
Proof.
  split; [reflexivity|]. split; [reflexivity|].
  apply (median_unequal_arr_by_position Z middle
           [[Some 1; Some 4]; [Some 3]; [None; Some 5; Some 9]]%Z 1).
  vm_compute. lia.
Defined.
